(** * Anime_analysis: collector, normalizer and reporter

    A shallow embedding of [src/scrape.py], [src/clean.py] and
    [src/analyze_visualize.py], and the properties of the three batch
    stages that the specification states about them.

    Conventions of the embedding:
    - Python [str] values are [string]s whose characters are read as
      Latin-1 code points (one character per code point below 256);
    - Python exceptions are values of [exn]; a computation that can raise
      and that logs, sleeps, talks to the network or touches the file
      system is a function [world -> result A * world];
    - the third-party libraries (requests, BeautifulSoup, pandas, numpy,
      matplotlib) are not part of the repository: a parsed document is
      represented by the answers to the queries the collector issues, and
      the number parsers, the sort and the renderer are fields of
      [ExternalLibs]. *)

From Stdlib Require Import Ascii String QArith Qround Lqa.
From stdpp Require Import gmap strings list sorting pretty.

Local Open Scope string_scope.

(** ** Python built-ins on text *)

Module Py.

Definition ord (c : ascii) : N := N_of_ascii c.

(** [re]'s [\d] and the characters [int()] accepts: the decimal digits. *)
Definition is_decimal (c : ascii) : bool :=
  ((48 <=? ord c) && (ord c <=? 57))%N.

(** [str.isdigit] on one character: the decimal digits and, in Latin-1,
    the superscripts U+00B2, U+00B3 and U+00B9. *)
Definition char_isdigit (c : ascii) : bool :=
  is_decimal c || (ord c =? 178)%N || (ord c =? 179)%N || (ord c =? 185)%N.

(** [str.isspace] on one character, also [re]'s [\s]. *)
Definition char_isspace (c : ascii) : bool :=
  ((9 <=? ord c) && (ord c <=? 13))%N || ((28 <=? ord c) && (ord c <=? 32))%N
  || (ord c =? 133)%N || (ord c =? 160)%N.

Definition digit_val (c : ascii) : Z := Z.of_N (ord c) - 48.

Fixpoint filter_chars (p : ascii -> bool) (s : string) : string :=
  match s with
  | EmptyString => EmptyString
  | String c s' => if p c then String c (filter_chars p s') else filter_chars p s'
  end.

Fixpoint all_chars (p : ascii -> bool) (s : string) : bool :=
  match s with
  | EmptyString => true
  | String c s' => p c && all_chars p s'
  end.

(** [s.isdigit()]: non-empty and every character a digit. *)
Definition isdigit (s : string) : bool :=
  match s with
  | EmptyString => false
  | _ => all_chars char_isdigit s
  end.

(** ["".join(filter(str.isdigit, s))] *)
Definition join_filter_isdigit (s : string) : string :=
  filter_chars char_isdigit s.

Fixpoint lstrip (s : string) : string :=
  match s with
  | String c s' => if char_isspace c then lstrip s' else s
  | EmptyString => EmptyString
  end.

Fixpoint rstrip (s : string) : string :=
  match s with
  | EmptyString => EmptyString
  | String c s' =>
      match rstrip s' with
      | EmptyString => if char_isspace c then EmptyString else String c EmptyString
      | r => String c r
      end
  end.

(** [s.strip()] *)
Definition strip (s : string) : string := rstrip (lstrip s).

(** [s.startswith(p)] *)
Definition startswith (p s : string) : bool := String.prefix p s.

(** [sub in s] *)
Fixpoint contains (sub s : string) : bool :=
  String.prefix sub s ||
  match s with
  | EmptyString => false
  | String _ s' => contains sub s'
  end.

(** [s.replace(",", "")] *)
Definition remove_commas (s : string) : string :=
  filter_chars (fun c => negb (Ascii.eqb c ","%char)) s.

(** The digits of an [int()] literal: decimal digits, single underscores
    allowed between two digits. [prev] tells whether the previous
    character was a digit. *)
Fixpoint int_digits (acc : Z) (prev : bool) (s : string) : option Z :=
  match s with
  | EmptyString => if prev then Some acc else None
  | String c s' =>
      if is_decimal c then int_digits (acc * 10 + digit_val c) true s'
      else if Ascii.eqb c "_"%char then
        if prev then int_digits acc false s' else None
      else None
  end.

(** [int(s)] on text: surrounding whitespace and one sign are accepted;
    [None] stands for [ValueError]. *)
Definition int (s : string) : option Z :=
  match strip s with
  | String "-"%char d => Z.opp <$> int_digits 0 false d
  | String "+"%char d => int_digits 0 false d
  | d => int_digits 0 false d
  end.

(** Longest prefix of characters satisfying [p], and the rest. *)
Fixpoint span_chars (p : ascii -> bool) (s : string) : string * string :=
  match s with
  | String c s' =>
      if p c then let '(a, b) := span_chars p s' in (String c a, b)
      else (EmptyString, s)
  | EmptyString => (EmptyString, EmptyString)
  end.

Definition drop_prefix (p s : string) : option string :=
  if String.prefix p s
  then Some (String.substring (String.length p) (String.length s - String.length p) s)
  else None.

Definition is_num_or_comma (c : ascii) : bool :=
  is_decimal c || Ascii.eqb c ","%char.

(** One attempt of the pattern [label:\s*([\d,]+)] at the start of [s];
    the result is group 1. The two character classes are disjoint, so
    the greedy [\s*] never has to give characters back. *)
Definition match_stat_here (label s : string) : option string :=
  rest ← drop_prefix (label ++ ":") s;
  let '(_, after_ws) := span_chars char_isspace rest in
  let '(num, _) := span_chars is_num_or_comma after_ws in
  match num with
  | EmptyString => None
  | _ => Some num
  end.

(** [re.search(fr"{label}:\s*([\d,]+)", s)], group 1 of the leftmost
    match. *)
Fixpoint search_stat (label s : string) : option string :=
  match match_stat_here label s with
  | Some g => Some g
  | None =>
      match s with
      | EmptyString => None
      | String _ s' => search_stat label s'
      end
  end.

(** One attempt of [by ([\d,]+) users] at the start of [s]. After the
    longest run of digits and commas the next character is neither, so a
    shorter run cannot be followed by the space either. *)
Definition match_users_here (s : string) : option string :=
  rest ← drop_prefix "by " s;
  let '(num, after) := span_chars is_num_or_comma rest in
  match num with
  | EmptyString => None
  | _ => if String.prefix " users" after then Some num else None
  end.

(** [re.search(r'by ([\d,]+) users', s)], group 1. *)
Fixpoint search_users (s : string) : option string :=
  match match_users_here s with
  | Some g => Some g
  | None =>
      match s with
      | EmptyString => None
      | String _ s' => search_users s'
      end
  end.

End Py.

(** ** Exceptions and results *)

(** The exception classes the three scripts can meet; every one of them
    derives from Python's [Exception]. [HTTPError] derives from
    [RequestException]. *)
Inductive exn_class :=
| AnimeScraperError
| RequestException
| HTTPError
| ValueError
| TypeError
| AttributeError
| KeyError
| FileNotFoundError
| OtherException.

Record exn := Exn { exn_cls : exn_class; exn_msg : string }.

#[global] Instance exn_class_eq_dec : EqDecision exn_class.
Proof. solve_decision. Defined.

#[global] Instance exn_eq_dec : EqDecision exn.
Proof. solve_decision. Defined.

(** [isinstance(e, requests.exceptions.RequestException)] *)
Definition is_RequestException (e : exn) : bool :=
  match exn_cls e with
  | RequestException | HTTPError => true
  | _ => false
  end.

Inductive result (A : Type) :=
| Ok (a : A)
| Raise (e : exn).
Arguments Ok {A} a.
Arguments Raise {A} e.

Definition is_ok {A} (r : result A) : bool :=
  match r with Ok _ => true | Raise _ => false end.

(** ** Numbers and table cells *)

(** A binary64 value: finite (kept as an exact rational), an infinity or
    NaN. Rounding of finite results to 53 bits is not modelled. *)
Inductive float64 :=
| Fin (q : Q)
| Inf (negative : bool)
| NaN.

(** A cell of a pandas column: a number (NaN is the missing value) or
    text. *)
Inductive cell :=
| CNum (x : float64)
| CStr (s : string).

(** A DataFrame, column by column. Every column has [nrows] cells
    ([wf_frame]); the row labels are the positions. *)
Record DataFrame := Frame { nrows : nat; cols : gmap string (list cell) }.

Definition wf_frame (df : DataFrame) : Prop :=
  map_Forall (λ _ col, length col = nrows df) (cols df).

(** ** Documents, as BeautifulSoup answers the collector's queries *)

(** [element.next_sibling] of a label element. *)
Inductive sibling :=
| NoSibling
| SibString (s : string)
| SibTag.

(** The [td.score] cell of a listing row: the text of its first [span]
    (if it has one) and [get_text(strip=True)] of the whole cell. *)
Record score_cell := ScoreCell { span_text : option string; cell_text : string }.

(** The [a] element under the title heading: its [.text] and its [href]
    attribute, if present. *)
Record anchor := Anchor { a_text : string; a_href : option string }.

(** One [tr.ranking-list] row: [.text] of [td.rank], the [a] found under
    [h3.anime_ranking_h3] (outer [None]: no heading; inner [None]: a
    heading without link) and the [td.score] cell. *)
Record entry := Entry {
  rank_td : option string;
  title_h3 : option (option anchor);
  score_td : option score_cell
}.

(** A parsed page. [find_span label] is [soup.find('span', string=label)]:
    [None], or the element found, given by its next sibling.
    [genre_spans] lists [g.text] for [soup.select("span[itemprop='genre']")],
    [page_strings] the text nodes in document order, [ranking_rows] is
    [soup.find_all("tr", class_="ranking-list")]. *)
Record soup := Soup {
  find_span : string → option sibling;
  genre_spans : list string;
  get_text : string;
  page_strings : list string;
  ranking_rows : list entry
}.

(** What [session.get(url, timeout=10)] ends with, once the adapter has
    used up its retries: an exception, or a response with a status code
    and a body (given parsed). *)
Inductive http_result :=
| GetRaises (e : exn)
| Response (status : Z) (content : soup).

(** ** The libraries' number parsers, sort and renderer *)

Inductive chart :=
| TopAnime
| ScoreEpisodes
| GenresDistribution
| WatchingStatus.

#[global] Instance chart_eq_dec : EqDecision chart.
Proof. solve_decision. Defined.

Class ExternalLibs := {
  (** Python's [float(s)]; [None] is [ValueError]. *)
  py_float : string → option float64;
  (** [pd.to_numeric(..., errors='coerce')] on one text cell; NaN when
      the text is no number. *)
  pd_parse : string → float64;
  (** [numpy.argsort(kind='quicksort')] on NaN-free keys. *)
  np_argsort : list float64 → list nat;
  (** Whether drawing a chart of a table raises inside matplotlib or
      seaborn. *)
  plt_render : chart → DataFrame → option exn
}.

(** ** The world: network, log, clock, file system *)

Inductive log_level := INFO | ERROR.

Inductive log_msg :=
| MsgErrorFetching (url : string) (e : exn)
| MsgErrorParsingDetails (url : string) (e : exn)
| MsgErrorProcessingEntry (title : string) (e : exn)
| MsgFetchingPage (offset : Z)
| MsgDataSaved (filepath : list string)
| MsgDataSummary
| MsgTotalEntries (n : nat)
| MsgAverageScore (mean : float64)
| MsgScriptFailed (e : exn)
| MsgStartingCleaning
| MsgCleaningColumn (col : string) (first5 : list cell)
| MsgSkippingPlot
| MsgLoadedCleaned (n : nat)
| MsgAllPlotsSaved
| MsgErrorVisualization (e : exn).

Inductive event :=
| EvLog (lvl : log_level) (msg : log_msg)
| EvSleep (lo hi : Z).

(** A path is the list of its components. *)
Abbreviation path := (list string).

Inductive file :=
| CsvFile (df : DataFrame)
| PngFile (c : chart) (df : DataFrame).

(** [net n url] is the outcome of the [n]-th request of the run when it
    asks for [url]; [trace] holds the log records and the sleeps, latest
    first. *)
Record world := World {
  net : nat → string → http_result;
  requests : nat;
  trace : list event;
  dirs : gset path;
  files : gmap path file
}.

(** ** Computations that have effects and can raise *)

Definition M (A : Type) : Type := world → result A * world.

#[global] Instance M_ret : MRet M := λ A a w, (Ok a, w).
#[global] Instance M_bind : MBind M := λ A B f m w,
  match m w with
  | (Ok a, w') => f a w'
  | (Raise e, w') => (Raise e, w')
  end.

#[global] Instance result_ret : MRet result := λ A a, Ok a.
#[global] Instance result_bind : MBind result := λ A B f r,
  match r with
  | Ok a => f a
  | Raise e => Raise e
  end.

Definition raise {A} (e : exn) : M A := λ w, (Raise e, w).

(** A pure step that can raise, run inside [M]. *)
Definition lift {A} (r : result A) : M A := λ w, (r, w).

(** [try: m  except Exception as e: h e] *)
Definition try_except {A} (m : M A) (h : exn → M A) : M A := λ w,
  match m w with
  | (Ok a, w') => (Ok a, w')
  | (Raise e, w') => h e w'
  end.

(** [try: m  except C as e: h e], for the class test [is_C] *)
Definition try_except_when {A} (is_C : exn → bool) (m : M A) (h : exn → M A) : M A :=
  try_except m (λ e, if is_C e then h e else raise e).

(** The world after one more record in the trace. *)
Definition log_event (ev : event) (w : world) : world :=
  World (net w) (requests w) (ev :: trace w) (dirs w) (files w).

(** The world after one more request. *)
Definition count_request (w : world) : world :=
  World (net w) (S (requests w)) (trace w) (dirs w) (files w).

Definition emit (ev : event) : M unit := λ w, (Ok tt, log_event ev w).

Definition logging_info (msg : log_msg) : M unit := emit (EvLog INFO msg).
Definition logging_error (msg : log_msg) : M unit := emit (EvLog ERROR msg).

(** [time.sleep(random.uniform(lo, hi))] *)
Definition sleep_uniform (lo hi : Z) : M unit := emit (EvSleep lo hi).

(** ** The collector ([src/scrape.py]) *)

Definition BASE_URL : string := "https://myanimelist.net/topanime.php".

(** The session and its retry policy. The retries themselves happen
    inside [session.get]; [net] gives their final outcome. *)
Record session := Session {
  retry_total : nat;
  backoff_factor : Z;
  status_forcelist : list Z;
  timeout_seconds : Z
}.

Definition create_session : session :=
  {| retry_total := 3; backoff_factor := 1;
     status_forcelist := [429; 500; 502; 503; 504]%Z;
     timeout_seconds := 10 |}.

(** [session.get(url, timeout=10)] *)
Definition session_get (s : session) (url : string) : M http_result := λ w,
  (Ok (net w (requests w) url), count_request w).

(** [response.raise_for_status()] *)
Definition raise_for_status (status : Z) (url : string) : result unit :=
  if ((400 <=? status) && (status <? 600))%Z
  then Raise (Exn HTTPError ("HTTP error for url: " ++ url))
  else Ok tt.

Definition fetch_page (s : session) (url : string) : M soup :=
  try_except_when is_RequestException
    (r ← session_get s url;
     match r with
     | GetRaises e => raise e
     | Response status content =>
         _ ← lift (raise_for_status status url);
         mret content
     end)
    (λ e,
       _ ← logging_error (MsgErrorFetching url e);
       raise (Exn AnimeScraperError ("Failed to fetch page: " ++ exn_msg e))).

(** The detail fields of one title. *)
Record details := Details {
  Type_ : string;
  Episodes : string;
  Duration : string;
  Source : string;
  Aired : string;
  Season : string;
  Genres : string;
  Watching : Z;
  Completed : Z;
  On_Hold : Z;
  Dropped : Z;
  Plan_to_Watch : Z;
  Season_Number : Z
}.

(** The record returned by the handler of [parse_anime_details]. *)
Definition default_details : details :=
  {| Type_ := "Unknown"; Episodes := "Unknown"; Duration := "Unknown";
     Source := "Unknown"; Aired := "Unknown"; Season := "Unknown";
     Genres := "Unknown";
     Watching := 0; Completed := 0; On_Hold := 0; Dropped := 0;
     Plan_to_Watch := 0; Season_Number := 1 |}.

(** One turn of the loop over [info_fields]:
    [element = soup.find('span', string=label)], then
    [element.next_sibling.strip()] when both are truthy. A sibling that is
    a tag has no [strip] method: the attribute is looked up as a child tag,
    gives [None], and calling it raises [TypeError]. *)
Definition extract_field (doc : soup) (label : string) : result string :=
  match find_span doc label with
  | Some (SibString s) =>
      if String.eqb s "" then Ok "Unknown" else Ok (Py.strip s)
  | Some SibTag => Raise (Exn TypeError "'NoneType' object is not callable")
  | Some NoSibling | None => Ok "Unknown"
  end.

(** [", ".join(genres) if genres else "Unknown"] *)
Definition join_genres (genres : list string) : string :=
  match genres with
  | [] => "Unknown"
  | _ => String.concat ", " genres
  end.

(** One turn of the loop over the five statuses: the count stays 0
    without a match; with one, [int(match.group(1).replace(",", ""))]. *)
Definition extract_stat (page_text status : string) : result Z :=
  match Py.search_stat status page_text with
  | Some g =>
      match Py.int (Py.remove_commas g) with
      | Some n => Ok n
      | None => Raise (Exn ValueError "invalid literal for int() with base 10")
      end
  | None => Ok 0%Z
  end.

(** [soup.find(string=lambda t: t and "Season" in t)] *)
Definition find_season_string (doc : soup) : option string :=
  List.find (λ t, negb (String.eqb t "") && Py.contains "Season" t)
            (page_strings doc).

(** Lines 129-135: the season number inferred from the page text. *)
Definition infer_season_number (doc : soup) (type_ : string) : result Z :=
  if Py.startswith "TV" type_ then
    match find_season_string doc with
    | Some season_match =>
        let digits := Py.join_filter_isdigit season_match in
        if Py.isdigit digits then
          match Py.int digits with
          | Some n => Ok n
          | None => Raise (Exn ValueError "invalid literal for int() with base 10")
          end
        else Ok 1%Z
    | None => Ok 1%Z
    end
  else Ok 1%Z.

(** The statements of the [try] block after the fetch. *)
Definition extract_detail_fields (doc : soup) : result details :=
  type_ ← extract_field doc "Type:";
  episodes ← extract_field doc "Episodes:";
  duration ← extract_field doc "Duration:";
  source ← extract_field doc "Source:";
  aired ← extract_field doc "Aired:";
  season ← extract_field doc "Season:";
  let genres := join_genres (genre_spans doc) in
  let page_text := get_text doc in
  watching ← extract_stat page_text "Watching";
  completed ← extract_stat page_text "Completed";
  on_hold ← extract_stat page_text "On-Hold";
  dropped ← extract_stat page_text "Dropped";
  plan_to_watch ← extract_stat page_text "Plan to Watch";
  season_num ← infer_season_number doc type_;
  mret {| Type_ := type_; Episodes := episodes; Duration := duration;
          Source := source; Aired := aired; Season := season;
          Genres := genres;
          Watching := watching; Completed := completed; On_Hold := on_hold;
          Dropped := dropped; Plan_to_Watch := plan_to_watch;
          Season_Number := season_num |}.

(** The [try] block of [parse_anime_details]. *)
Definition parse_anime_details_try (s : session) (url : string) : M details :=
  doc ← fetch_page s url;
  lift (extract_detail_fields doc).

Definition parse_anime_details (s : session) (url : string) : M details :=
  try_except (parse_anime_details_try s url)
    (λ e,
       _ ← logging_error (MsgErrorParsingDetails url e);
       mret default_details).

(** One collected title: the summary fields of the listing row, then the
    detail fields (the dictionary [{..., **details}]; the two key sets are
    disjoint). *)
Record RawRecord := Raw {
  Rank : Z;
  Title : string;
  Score : float64;
  Rating_Users : Z;
  Detail : details
}.

Definition attribute_error (what : string) : exn :=
  Exn AttributeError ("'NoneType' object has no attribute '" ++ what ++ "'").

(** Lines 171-173: rank, title link and title. When this part succeeds
    the local variable [title] is bound. *)
Definition extract_rank_title (e : entry) : result (Z * anchor * string) :=
  rank_text ← match rank_td e with
              | Some t => Ok t
              | None => Raise (attribute_error "text")
              end;
  rank ← match Py.int (Py.strip rank_text) with
         | Some n => Ok n
         | None => Raise (Exn ValueError "invalid literal for int() with base 10")
         end;
  h3 ← match title_h3 e with
       | Some h => Ok h
       | None => Raise (attribute_error "find")
       end;
  title_tag ← match h3 with
              | Some a => Ok a
              | None => Raise (attribute_error "text")
              end;
  mret (rank, title_tag, Py.strip (a_text title_tag)).

(** Lines 174-184: link, score and number of rating users. *)
Definition extract_link_score `{ExternalLibs} (e : entry) (title_tag : anchor)
  : result (string * float64 * Z) :=
  link ← match a_href title_tag with
         | Some l => Ok l
         | None => Raise (Exn KeyError "href")
         end;
  score ← match score_td e with
          | Some td =>
              match span_text td with
              | Some t =>
                  match py_float (Py.strip t) with
                  | Some x => Ok x
                  | None => Raise (Exn ValueError "could not convert string to float")
                  end
              | None => Raise (attribute_error "text")
              end
          | None => Ok (Fin 0)
          end;
  rating_text ← match score_td e with
                | Some td => Ok (cell_text td)
                | None => Raise (attribute_error "get_text")
                end;
  rating_users ← match Py.search_users rating_text with
                 | Some g =>
                     match Py.int (Py.remove_commas g) with
                     | Some n => Ok n
                     | None => Raise (Exn ValueError "invalid literal for int() with base 10")
                     end
                 | None => Ok 0%Z
                 end;
  mret (link, score, rating_users).

(** The summary fields of a row, when the whole extraction succeeds. *)
Definition extract_listing_entry `{ExternalLibs} (e : entry)
  : result (Z * string * string * float64 * Z) :=
  '(rank, title_tag, title) ← extract_rank_title e;
  '(link, score, rating_users) ← extract_link_score e title_tag;
  mret (rank, title, link, score, rating_users).

(** The variables of [parse_top_anime] that live across iterations:
    [anime_list], and [title], which stays bound to the last title read
    (the handler prints it when ['title' in locals()]). *)
Record loop_state := LoopState {
  anime_list : list RawRecord;
  title_local : option string
}.

(** The text the handler prints for the entry. *)
Definition title_or_unknown (title : option string) : string :=
  default "unknown" title.

(** The body of the [for] loop: one [try] / [except Exception]. *)
Definition process_entry `{ExternalLibs} (s : session) (st : loop_state) (e : entry)
  : M loop_state :=
  match extract_rank_title e with
  | Raise ex =>
      _ ← logging_error (MsgErrorProcessingEntry (title_or_unknown (title_local st)) ex);
      mret st
  | Ok (rank, title_tag, title) =>
      try_except
        ('(link, score, rating_users) ← lift (extract_link_score e title_tag);
         d ← parse_anime_details s link;
         let anime_list' :=
           (anime_list st ++
             [{| Rank := rank; Title := title; Score := score;
                 Rating_Users := rating_users; Detail := d |}])%list in
         _ ← sleep_uniform 5 10;
         mret (LoopState anime_list' (Some title)))
        (λ ex,
           _ ← logging_error (MsgErrorProcessingEntry title ex);
           mret (LoopState (anime_list st) (Some title)))
  end.

Fixpoint for_entries `{ExternalLibs} (s : session) (st : loop_state) (entries : list entry)
  : M loop_state :=
  match entries with
  | [] => mret st
  | e :: rest =>
      st' ← process_entry s st e;
      for_entries s st' rest
  end.

Definition parse_top_anime `{ExternalLibs} (s : session) (page : soup) : M (list RawRecord) :=
  st ← for_entries s (LoopState [] None) (ranking_rows page);
  mret (anime_list st).

(** ** Arithmetic on [float64] *)

Definition Qis_zero (q : Q) : bool := Qeq_bool q 0%Q.
Definition Qis_neg (q : Q) : bool := negb (Qle_bool 0%Q q).

Definition fadd (x y : float64) : float64 :=
  match x, y with
  | NaN, _ | _, NaN => NaN
  | Fin a, Fin b => Fin (a + b)%Q
  | Inf s, Fin _ | Fin _, Inf s => Inf s
  | Inf s, Inf s' => if Bool.eqb s s' then Inf s else NaN
  end.

Definition fmul (x y : float64) : float64 :=
  match x, y with
  | NaN, _ | _, NaN => NaN
  | Fin a, Fin b => Fin (a * b)%Q
  | Inf s, Fin b | Fin b, Inf s =>
      if Qis_zero b then NaN else Inf (xorb s (Qis_neg b))
  | Inf s, Inf s' => Inf (xorb s s')
  end.

(** Division as numpy does it on a column: no exception, [0/0] is NaN and
    a non-zero number over zero is an infinity (the zero taken as [+0]). *)
Definition fdiv (x y : float64) : float64 :=
  match x, y with
  | NaN, _ | _, NaN => NaN
  | Fin a, Fin b =>
      if Qis_zero b then
        if Qis_zero a then NaN else Inf (Qis_neg a)
      else Fin (a / b)%Q
  | Fin _, Inf _ => Fin 0
  | Inf s, Fin b => Inf (xorb s (Qis_neg b))
  | Inf _, Inf _ => NaN
  end.

(** Round half to even, to an integer. *)
Definition rint (q : Q) : Z :=
  let f := Qfloor q in
  match ((q - inject_Z f) ?= (1 # 2))%Q with
  | Lt => f
  | Gt => (f + 1)%Z
  | Eq => if Z.even f then f else (f + 1)%Z
  end.

(** [numpy.round(x, 2)]: [rint(x * 100) / 100]. *)
Definition round2 (x : float64) : float64 :=
  match x with
  | Fin q => Fin (inject_Z (rint (q * 100)) / 100)%Q
  | other => other
  end.

Definition is_nan (x : float64) : bool :=
  match x with NaN => true | _ => false end.

(** [x == 0] *)
Definition feq_zero (x : float64) : bool :=
  match x with Fin q => Qis_zero q | _ => false end.

(** [Series.sum()] of numbers: NaN is skipped. *)
Definition fsum_skipna (xs : list float64) : float64 :=
  foldl (λ acc x, if is_nan x then acc else fadd acc x) (Fin 0) xs.

(** [Series.mean()] of numbers: NaN is skipped; NaN when nothing is left. *)
Definition fmean_skipna (xs : list float64) : float64 :=
  let present := List.filter (λ x, negb (is_nan x)) xs in
  match present with
  | [] => NaN
  | _ => fdiv (fsum_skipna present) (Fin (inject_Z (Z.of_nat (length present))))
  end.

(** ** Saving the collected records *)

Definition num_cell (z : Z) : cell := CNum (Fin (inject_Z z)).

(** [pd.DataFrame(anime_list)]: one column per key. *)
Definition DataFrame_of_records (l : list RawRecord) : DataFrame :=
  let col {A} (f : RawRecord → A) (g : A → cell) := g ∘ f <$> l in
  let det {A} (f : details → A) (g : A → cell) := g ∘ f ∘ Detail <$> l in
  Frame (length l)
    (list_to_map
       [("Rank", col Rank num_cell); ("Title", col Title CStr);
        ("Score", col Score CNum); ("Rating_Users", col Rating_Users num_cell);
        ("Type", det Type_ CStr); ("Episodes", det Episodes CStr);
        ("Duration", det Duration CStr); ("Source", det Source CStr);
        ("Aired", det Aired CStr); ("Season", det Season CStr);
        ("Genres", det Genres CStr);
        ("Watching", det Watching num_cell); ("Completed", det Completed num_cell);
        ("On_Hold", det On_Hold num_cell); ("Dropped", det Dropped num_cell);
        ("Plan_to_Watch", det Plan_to_Watch num_cell);
        ("Season_Number", det Season_Number num_cell)]).

(** [p.parent] *)
Definition parent (p : path) : path := removelast p.

(** [p] and the directories above it *)
Definition with_ancestors (p : path) : list path := (λ n, take n p) <$> seq 0 (S (length p)).

Definition is_file (w : world) (p : path) : bool := bool_decide (is_Some (files w !! p)).
Definition is_dir (w : world) (p : path) : bool := bool_decide (p ∈ dirs w).

(** [p.mkdir(parents=True, exist_ok=True)] *)
Definition mkdir_parents (p : path) : M unit := λ w,
  if existsb (is_file w) (with_ancestors p)
  then (Raise (Exn OtherException "FileExistsError"), w)
  else (Ok tt, World (net w) (requests w) (trace w)
                     (dirs w ∪ list_to_set (with_ancestors p)) (files w)).

(** [p.mkdir(exist_ok=True)] *)
Definition mkdir_exist_ok (p : path) : M unit := λ w,
  if is_file w p then (Raise (Exn OtherException "FileExistsError"), w)
  else if is_dir w p then (Ok tt, w)
  else if is_dir w (parent p)
  then (Ok tt, World (net w) (requests w) (trace w) (dirs w ∪ {[p]}) (files w))
  else (Raise (Exn FileNotFoundError "No such file or directory"), w).

(** The world after the file [p] is created or replaced. *)
Definition with_file (p : path) (f : file) (w : world) : world :=
  World (net w) (requests w) (trace w) (dirs w) (<[p := f]> (files w)).

(** Creating or replacing the file [p] *)
Definition write_file (p : path) (f : file) : M unit := λ w,
  if is_dir w p then (Raise (Exn OtherException "IsADirectoryError"), w)
  else if is_dir w (parent p)
  then (Ok tt, with_file p f w)
  else (Raise (Exn FileNotFoundError "No such file or directory"), w).

Definition save_data (anime_list : list RawRecord) (filepath : path) : M DataFrame :=
  match anime_list with
  | [] => raise (Exn AnimeScraperError "No data to save")
  | _ =>
      let df := DataFrame_of_records anime_list in
      _ ← mkdir_parents (parent filepath);
      _ ← write_file filepath (CsvFile df);
      _ ← logging_info (MsgDataSaved filepath);
      mret df
  end.

Definition listing_url (offset : Z) : string :=
  BASE_URL ++ "?limit=" ++ pretty offset.

(** The body of the loop over the offsets. *)
Definition fetch_listing `{ExternalLibs} (s : session) (all_anime : list RawRecord) (offset : Z)
  : M (list RawRecord) :=
  let url := listing_url offset in
  _ ← logging_info (MsgFetchingPage offset);
  page ← fetch_page s url;
  found ← parse_top_anime s page;
  _ ← sleep_uniform 2 4;
  mret (all_anime ++ found)%list.

Fixpoint for_offsets `{ExternalLibs} (s : session) (all_anime : list RawRecord) (offsets : list Z)
  : M (list RawRecord) :=
  match offsets with
  | [] => mret all_anime
  | offset :: rest =>
      all_anime' ← fetch_listing s all_anime offset;
      for_offsets s all_anime' rest
  end.

Definition scores_of (l : list RawRecord) : list float64 := Score <$> l.

(** [main] of [scrape.py]; [script_dir] is the directory of the script. *)
Definition scrape_main `{ExternalLibs} (script_dir : path) : M unit :=
  try_except
    (let data_dir := (parent script_dir ++ ["data"])%list in
     let output_file := (data_dir ++ ["top_anime_detailed.csv"])%list in
     let s := create_session in
     all_anime ← for_offsets s [] [0; 50; 100]%Z;
     df ← save_data all_anime output_file;
     _ ← logging_info MsgDataSummary;
     _ ← logging_info (MsgTotalEntries (nrows df));
     _ ← logging_info (MsgAverageScore (fmean_skipna (scores_of all_anime)));
     mret tt)
    (λ e,
       _ ← logging_error (MsgScriptFailed e);
       raise e).

(** ** The normalizer ([src/clean.py]) *)

(** [df[c]]: [KeyError] when the column is absent. *)
Definition get_col (df : DataFrame) (c : string) : result (list cell) :=
  match cols df !! c with
  | Some col => Ok col
  | None => Raise (Exn KeyError c)
  end.

(** [df[c] = col] *)
Definition set_col (df : DataFrame) (c : string) (col : list cell) : DataFrame :=
  Frame (nrows df) (<[c := col]> (cols df)).

(** The number in a cell of a numeric column. *)
Definition as_num (c : cell) : float64 :=
  match c with CNum x => x | CStr _ => NaN end.

(** [pd.to_numeric(col, errors='coerce')], cell by cell. *)
Definition to_numeric `{ExternalLibs} (col : list cell) : list cell :=
  (λ c, match c with
        | CNum x => CNum x
        | CStr s => CNum (pd_parse s)
        end) <$> col.

(** [col.dtype == 'object']: the column holds text. *)
Definition is_object (col : list cell) : bool :=
  existsb (λ c, match c with CStr _ => true | CNum _ => false end) col.

(** [col.str.replace(',', '')]: a cell that is no text becomes NaN. *)
Definition str_replace_commas (col : list cell) : list cell :=
  (λ c, match c with
        | CStr s => CStr (Py.remove_commas s)
        | CNum _ => CNum NaN
        end) <$> col.

(** [col.replace('Unknown', np.nan)] *)
Definition replace_unknown (col : list cell) : list cell :=
  (λ c, match c with
        | CStr s => if String.eqb s "Unknown" then CNum NaN else c
        | CNum _ => c
        end) <$> col.

(** [col.fillna(v)] *)
Definition fillna (v : cell) (col : list cell) : list cell :=
  (λ c, match c with CNum NaN => v | _ => c end) <$> col.

Definition status_cols : list string :=
  ["Watching"; "Completed"; "On_Hold"; "Dropped"; "Plan_to_Watch"].

(** [pd.to_numeric(col, errors='coerce').fillna(0)] *)
Definition cleaned_status `{ExternalLibs} (col : list cell) : list cell :=
  fillna (CNum (Fin 0)) (to_numeric col).

(** The loop over [status_cols], lines 47-50. *)
Fixpoint clean_status_cols `{ExternalLibs} (df : DataFrame) (names : list string) : M DataFrame :=
  match names with
  | [] => mret df
  | col :: rest =>
      values ← lift (get_col df col);
      _ ← logging_info (MsgCleaningColumn col (take 5 values));
      clean_status_cols (set_col df col (cleaned_status values)) rest
  end.

Definition cell_add (a b : cell) : cell := CNum (fadd (as_num a) (as_num b)).

(** [df[names]]: the listed columns, [KeyError] when one is absent. *)
Definition get_cols (df : DataFrame) (names : list string) : result (list (list cell)) :=
  mapM (get_col df) names.

(** [frame.sum(axis=1)] over numeric columns of [n] rows. *)
Definition sum_axis1 (n : nat) (columns : list (list cell)) : list cell :=
  foldl (zip_with cell_add) (replicate n (CNum (Fin 0))) columns.

(** [(completed / total * 100).round(2).fillna(0)] *)
Definition completion_rate (completed total : list cell) : list cell :=
  fillna (CNum (Fin 0))
    (zip_with (λ c t, CNum (round2 (fmul (fdiv (as_num c) (as_num t)) (Fin 100))))
       completed total).

(** [pandas.core.sorting.nargsort(items, kind='quicksort',
    ascending=False, na_position='last')]: the NaN positions are set
    aside, the others are reversed, sorted in ascending order and reversed
    again, and the NaN positions are put at the end. *)
Definition nargsort_descending `{ExternalLibs} (items : list float64) : list nat :=
  let indexed := zip (seq 0 (length items)) items in
  let present := List.filter (λ p, negb (is_nan p.2)) indexed in
  let nan_idx := fst <$> List.filter (λ p, is_nan p.2) indexed in
  let non_nans := reverse (snd <$> present) in
  let non_nan_idx := reverse (fst <$> present) in
  let sorted := (λ j, nth j non_nan_idx 0%nat) <$> np_argsort non_nans in
  (reverse sorted ++ nan_idx)%list.

(** [col.take(indexer)]: [IndexError] for a position outside the column. *)
Definition take_rows (indexer : list nat) (col : list cell) : result (list cell) :=
  mapM (λ i, match col !! i with
             | Some c => Ok c
             | None => Raise (Exn OtherException "IndexError")
             end) indexer.

Definition ok_to_option {A} (r : result A) : option A :=
  match r with Ok a => Some a | Raise _ => None end.

(** [df.sort_values('Score', ascending=False).reset_index(drop=True)]:
    every column is taken at the positions of the indexer. *)
Definition sort_values_score_desc `{ExternalLibs} (df : DataFrame) : result DataFrame :=
  k ← get_col df "Score";
  let indexer := nargsort_descending (as_num <$> k) in
  if bool_decide (map_Forall (λ _ col, is_ok (take_rows indexer col) = true) (cols df))
  then Ok (Frame (length indexer)
                 (omap (λ col, ok_to_option (take_rows indexer col)) (cols df)))
  else Raise (Exn OtherException "IndexError").

(** Lines 24-56 of [clean_anime_data]: the coercions and the two derived
    columns. *)
Definition clean_columns `{ExternalLibs} (df : DataFrame) : M DataFrame :=
  _ ← logging_info MsgStartingCleaning;
  score ← lift (get_col df "Score");
  let df := set_col df "Score" (to_numeric score) in
  rating ← lift (get_col df "Rating_Users");
  let rating' := if is_object rating
                 then to_numeric (str_replace_commas rating)
                 else to_numeric rating in
  let df := set_col df "Rating_Users" rating' in
  episodes ← lift (get_col df "Episodes");
  let df := set_col df "Episodes" (to_numeric (replace_unknown episodes)) in
  type_ ← lift (get_col df "Type");
  let df := set_col df "Type" (fillna (CStr "Other") type_) in
  df ← clean_status_cols df status_cols;
  statuses ← lift (get_cols df status_cols);
  let df := set_col df "Total_Watchers" (sum_axis1 (nrows df) statuses) in
  completed ← lift (get_col df "Completed");
  total ← lift (get_col df "Total_Watchers");
  mret (set_col df "Completion_Rate" (completion_rate completed total)).

(** Lines 58-60: the sort, and the result. *)
Definition clean_anime_data `{ExternalLibs} (df : DataFrame) : M DataFrame :=
  df ← clean_columns df;
  lift (sort_values_score_desc df).

(** ** The reporter ([src/analyze_visualize.py]) *)

(** [plt.savefig(p)] of the chart [c] drawn from [df] *)
Definition savefig (p : path) (c : chart) (df : DataFrame) : M unit :=
  write_file p (PngFile c df).

(** A chart operation whose drawing is left to the libraries: it raises
    what they raise, or saves the figure. *)
Definition draw_and_save `{ExternalLibs} (c : chart) (df : DataFrame) (p : path) : M unit :=
  match plt_render c df with
  | Some e => raise e
  | None => savefig p c df
  end.

Definition plot_top_anime `{ExternalLibs} (df : DataFrame) (plots_dir : path) : M unit :=
  draw_and_save TopAnime df (plots_dir ++ ["top_10_anime.png"])%list.

Definition plot_score_episodes `{ExternalLibs} (df : DataFrame) (plots_dir : path) : M unit :=
  draw_and_save ScoreEpisodes df (plots_dir ++ ["score_vs_episodes.png"])%list.

Definition plot_genres_distribution `{ExternalLibs} (df : DataFrame) (plots_dir : path) : M unit :=
  draw_and_save GenresDistribution df (plots_dir ++ ["genre_distribution.png"])%list.

(** [col.sum()] of one column. Adding text to a number raises
    [TypeError]; the cleaned schema has numbers only in these columns. *)
Definition col_sum (col : list cell) : result float64 :=
  if is_object col
  then Raise (Exn TypeError "unsupported operand type(s) for +")
  else Ok (fsum_skipna (as_num <$> col)).

(** [df[status_cols].sum()]: the five column totals. *)
Definition status_sums (df : DataFrame) : result (list float64) :=
  columns ← get_cols df status_cols;
  mapM col_sum columns.

Definition plot_watching_status `{ExternalLibs} (df : DataFrame) (plots_dir : path) : M unit :=
  sums ← lift (status_sums df);
  if feq_zero (fsum_skipna sums) then
    logging_info MsgSkippingPlot
  else
    draw_and_save WatchingStatus df (plots_dir ++ ["watching_status.png"])%list.

(** [pd.read_csv(p)] *)
Definition read_csv (p : path) : M DataFrame := λ w,
  match files w !! p with
  | Some (CsvFile df) => (Ok df, w)
  | Some (PngFile _ _) => (Raise (Exn OtherException "ParserError"), w)
  | None => (Raise (Exn FileNotFoundError "No such file or directory"), w)
  end.

(** [main] of [analyze_visualize.py]. [set_style()] only sets matplotlib
    and seaborn drawing parameters; it has no part in what follows and is
    left out. *)
Definition visualize_main `{ExternalLibs} (script_dir : path) : M unit :=
  try_except
    (let data_dir := (parent script_dir ++ ["data"])%list in
     let plots_dir := (parent script_dir ++ ["plots"])%list in
     _ ← mkdir_exist_ok plots_dir;
     df ← read_csv (data_dir ++ ["top_anime_detailed_cleaned.csv"])%list;
     _ ← logging_info (MsgLoadedCleaned (nrows df));
     _ ← plot_top_anime df plots_dir;
     _ ← plot_score_episodes df plots_dir;
     _ ← plot_genres_distribution df plots_dir;
     _ ← plot_watching_status df plots_dir;
     _ ← logging_info MsgAllPlotsSaved;
     mret tt)
    (λ e,
       _ ← logging_error (MsgErrorVisualization e);
       raise e).

(** ** What the code relies on from numpy's sort *)

(** [x <= y] on numbers that are not NaN. *)
Definition fleb (x y : float64) : bool :=
  match x, y with
  | NaN, _ | _, NaN => false
  | Inf true, _ => true
  | _, Inf false => true
  | Fin a, Fin b => Qle_bool a b
  | Inf false, _ => false
  | _, Inf true => false
  end.

Definition fle (x y : float64) : Prop := fleb x y = true.

(** The keys read at the positions an indexer lists. *)
Definition keys_at (keys : list float64) (indexer : list nat) : list float64 :=
  (λ j, nth j keys NaN) <$> indexer.

(** What numpy documents for [argsort(kind='quicksort')] on keys without
    NaN: the result lists every position once, and the keys read in that
    order ascend. The order of positions with equal keys is left open
    (quicksort is not a stable sort). *)
Definition argsort_spec (argsort : list float64 → list nat) : Prop :=
  ∀ keys, Forall (λ x, is_nan x = false) keys →
          argsort keys ≡ₚ seq 0 (length keys) ∧
          Sorted fle (keys_at keys (argsort keys)).

(** ** Two sorts that meet the contract, and simple number parsers *)

(** An argsort by merge sort of the (position, key) pairs, for a total
    order [le] on the pairs that refines the order of the keys. *)
Definition argsort_by (le : nat * float64 → nat * float64 → bool) (keys : list float64)
  : list nat :=
  fst <$> merge_sort (λ p q, Is_true (le p q)) (zip (seq 0 (length keys)) keys).

(** [fleb], made total by putting NaN first. *)
Definition fleb_total (x y : float64) : bool := is_nan x || fleb x y.

(** Equal keys stay in the order of their positions. *)
Definition le_key_then_pos (p q : nat * float64) : bool :=
  if fleb_total p.2 q.2
  then (if fleb_total q.2 p.2 then (p.1 <=? q.1)%nat else true)
  else false.


(** A decimal literal: digits, or digits with a fractional part, with an
    optional sign in front. *)
Definition decimal_literal (s : string) : option Q :=
  let '(neg, body) := match s with
                      | String "-"%char r => (true, r)
                      | String "+"%char r => (false, r)
                      | r => (false, r)
                      end in
  let '(ip, rest) := Py.span_chars Py.is_decimal body in
  i ← Py.int_digits 0 false ip;
  q ← match rest with
      | EmptyString => Some (inject_Z i)
      | String "."%char fp =>
          f ← Py.int_digits 0 false fp;
          Some (inject_Z i + inject_Z f / inject_Z (10 ^ Z.of_nat (String.length fp)))%Q
      | _ => None
      end;
  Some (Qred (if neg : bool then - q else q)%Q).

(** Libraries that parse decimal literals, sort stably and always manage
    to draw. *)
Definition stable_libs : ExternalLibs :=
  {| py_float := λ s, Fin <$> decimal_literal s;
     pd_parse := λ s, from_option Fin NaN (decimal_literal (Py.strip s));
     np_argsort := argsort_by le_key_then_pos;
     plt_render := λ _ _, None |}.


(** ** Sample data *)

Definition empty_soup : soup :=
  {| find_span := λ _, None; genre_spans := []; get_text := "";
     page_strings := []; ranking_rows := [] |}.

(** A server that answers every request with an empty page. *)
Definition empty_world : world :=
  {| net := λ _ _, Response 200 empty_soup; requests := 0; trace := [];
     dirs := {[ [] ]}; files := ∅ |}.

Definition int_col (l : list Z) : list cell := num_cell <$> l.
Definition str_col (l : list string) : list cell := CStr <$> l.

(** A raw table of two titles with the full column set. *)
Definition sample_raw : DataFrame :=
  Frame 2 (list_to_map
    [("Rank", int_col [1; 2]%Z); ("Title", str_col ["A"; "B"]);
     ("Score", str_col ["8.5"; "9.1"]); ("Rating_Users", str_col ["1,200"; "950"]);
     ("Type", str_col ["TV"; "Movie"]); ("Episodes", str_col ["24"; "Unknown"]);
     ("Genres", str_col ["Action, Drama"; "Unknown"]);
     ("Watching", int_col [10; 0]%Z); ("Completed", int_col [30; 0]%Z);
     ("On_Hold", int_col [5; 0]%Z); ("Dropped", int_col [5; 0]%Z);
     ("Plan_to_Watch", int_col [50; 0]%Z)]).

Definition run {A} (m : M A) (w : world) : result A := (m w).1.

(** ** The crawl, as a function of the server's answers *)

(** What [fetch_page] returns for an answer of the server. *)
Definition fetch_outcome (r : http_result) (url : string) : result soup :=
  match r with
  | GetRaises e =>
      if is_RequestException e
      then Raise (Exn AnimeScraperError ("Failed to fetch page: " ++ exn_msg e))
      else Raise e
  | Response status content =>
      match raise_for_status status url with
      | Ok _ => Ok content
      | Raise e => Raise (Exn AnimeScraperError ("Failed to fetch page: " ++ exn_msg e))
      end
  end.

(** What the [try] block of [parse_anime_details] ends with. *)
Definition detail_outcome (r : http_result) (url : string) : result details :=
  doc ← fetch_outcome r url;
  extract_detail_fields doc.

(** The detail record [parse_anime_details] returns for an answer. *)
Definition details_of_response (r : http_result) (url : string) : details :=
  match detail_outcome r url with
  | Ok d => d
  | Raise _ => default_details
  end.

Definition entry_ok `{ExternalLibs} (e : entry) : bool := is_ok (extract_listing_entry e).

(** The records of the rows of one listing page, when the first detail
    request is the [n]-th of the run: a row that does not parse is left
    out and makes no request. *)
Fixpoint crawl_rows `{ExternalLibs} (server : nat → string → http_result) (n : nat)
    (rows : list entry) : list RawRecord :=
  match rows with
  | [] => []
  | e :: rest =>
      match extract_listing_entry e with
      | Ok (rank, title, link, score, rating_users) =>
          {| Rank := rank; Title := title; Score := score;
             Rating_Users := rating_users;
             Detail := details_of_response (server n link) link |}
          :: crawl_rows server (S n) rest
      | Raise _ => crawl_rows server n rest
      end
  end.

(** The rows that parse on the listing pages of a run, in the order they
    are met; [None] when the fetch of a listing page fails. *)
Fixpoint parsed_rows `{ExternalLibs} (server : nat → string → http_result) (n : nat)
    (offsets : list Z) : option (list entry) :=
  match offsets with
  | [] => Some []
  | offset :: rest =>
      match fetch_outcome (server n (listing_url offset)) (listing_url offset) with
      | Ok page =>
          let ok := List.filter entry_ok (ranking_rows page) in
          later ← parsed_rows server (S n + length ok) rest;
          Some (ok ++ later)%list
      | Raise _ => None
      end
  end.

(** The rank written in a row that parses (0 for one that does not). *)
Definition rank_cell `{ExternalLibs} (e : entry) : Z :=
  match extract_listing_entry e with
  | Ok (rank, _, _, _, _) => rank
  | Raise _ => 0%Z
  end.

Definition is_entry_error (ev : event) : bool :=
  match ev with
  | EvLog ERROR (MsgErrorProcessingEntry _ _) => true
  | _ => false
  end.

(** The number of entries the log reports as skipped. *)
Definition entry_errors (tr : list event) : nat := length (List.filter is_entry_error tr).

(** A listing row with every cell present. *)
Definition sample_row (rank title href score : string) : entry :=
  {| rank_td := Some rank;
     title_h3 := Some (Some (Anchor title (Some href)));
     score_td := Some (ScoreCell (Some score) (score ++ "by 1,000 users")) |}.

(** A listing page of three titles. *)
Definition sample_listing : soup :=
  {| find_span := λ _, None; genre_spans := []; get_text := "";
     page_strings := [];
     ranking_rows := [sample_row "1" " Alpha " "/anime/1" "9.10";
                      sample_row "2" "Beta" "/anime/2" "8.75";
                      sample_row "3" "Gamma" "/anime/3" "8.50"] |}.

(** A detail page of a TV series. *)
Definition sample_detail : soup :=
  {| find_span := λ label,
       if String.eqb label "Type:" then Some (SibString " TV ")
       else if String.eqb label "Episodes:" then Some (SibString " 24 ")
       else if String.eqb label "Season:" then Some (SibString " Fall 2020")
       else None;
     genre_spans := ["Action"; "Drama"];
     get_text := "Watching: 1,234 Completed: 500 On-Hold: 7 Dropped: 3 Plan to Watch: 62";
     page_strings := ["Alpha"; "2nd Season"; "Type:"];
     ranking_rows := [] |}.

(** A server whose answer to the second request of the run is a timeout;
    the other requests get the detail page. *)
Definition second_request_fails : nat → string → http_result :=
  λ n _, if (n =? 1)%nat then GetRaises (Exn RequestException "Read timed out")
         else Response 200 sample_detail.

Definition sample_world (server : nat → string → http_result) : world :=
  {| net := server; requests := 0; trace := []; dirs := {[ [] ]}; files := ∅ |}.


(** The records of a run over the listing pages at [offsets], when the
    first request is the [n]-th; the exception of the listing fetch that
    fails otherwise. *)
Fixpoint crawl_pages `{ExternalLibs} (server : nat → string → http_result) (n : nat)
    (offsets : list Z) : result (list RawRecord) :=
  match offsets with
  | [] => Ok []
  | offset :: rest =>
      page ← fetch_outcome (server n (listing_url offset)) (listing_url offset);
      let found := crawl_rows server (S n) (ranking_rows page) in
      later ← crawl_pages server (S n + length found) rest;
      Ok (found ++ later)%list
  end.

(** The number a string of decimal digits denotes. *)
Fixpoint decimal_value_from (acc : Z) (s : string) : Z :=
  match s with
  | EmptyString => acc
  | String c s' => decimal_value_from (acc * 10 + Py.digit_val c) s'
  end.

Definition decimal_value (s : string) : Z := decimal_value_from 0 s.

(** The season number of a page whose detail fields could be read, from
    the text fragment the search finds: every digit of the fragment
    counts, in the order met. *)
Definition season_number_of (doc : soup) (type_ : string) : Z :=
  if Py.startswith "TV" type_ then
    match find_season_string doc with
    | Some fragment =>
        match Py.join_filter_isdigit fragment with
        | EmptyString => 1%Z
        | digits => decimal_value digits
        end
    | None => 1%Z
    end
  else 1%Z.

(** The specification's reading of the inference: the first run of
    digits of the fragment. *)
Definition leading_digit_run (s : string) : string :=
  (Py.span_chars Py.is_decimal
     (Py.span_chars (λ c, negb (Py.is_decimal c)) s).2).1.

Definition spec_season_number (doc : soup) (type_ : string) : Z :=
  if Py.startswith "TV" type_ then
    match find_season_string doc with
    | Some fragment =>
        match leading_digit_run fragment with
        | EmptyString => 1%Z
        | digits => decimal_value digits
        end
    | None => 1%Z
    end
  else 1%Z.

(** A detail page of a TV series whose first fragment with "Season" names
    two numbers, and one whose fragment names season 0. *)
Definition tv_page (fragment : string) : soup :=
  {| find_span := λ label,
       if String.eqb label "Type:" then Some (SibString " TV") else None;
     genre_spans := []; get_text := "";
     page_strings := ["Alpha"; fragment]; ranking_rows := [] |}.

Definition always (page : soup) : nat → string → http_result :=
  λ _ _, Response 200 page.

(** A listing row that has no score cell. *)
Definition row_without_score : entry :=
  {| rank_td := Some "1";
     title_h3 := Some (Some (Anchor "Alpha" (Some "/anime/1")));
     score_td := None |}.

Definition listing_of (rows : list entry) : soup :=
  {| find_span := λ _, None; genre_spans := []; get_text := "";
     page_strings := []; ranking_rows := rows |}.

(** A server that answers the listing URLs with [listing] and every
    other URL with [detail]. *)
Definition site (listing detail : soup) : nat → string → http_result :=
  λ _ url, if Py.startswith BASE_URL url then Response 200 listing
           else Response 200 detail.


(** ** The cleaned table, as a function of the raw columns *)

(** The [Rating_Users] column after lines 30-35. *)
Definition cleaned_rating `{ExternalLibs} (rating : list cell) : list cell :=
  if is_object rating then to_numeric (str_replace_commas rating) else to_numeric rating.

(** The table [clean_columns] builds, every column read from the raw
    table; the [KeyError] of the first column that is missing otherwise. *)
Definition cleaned_columns `{ExternalLibs} (df : DataFrame) : result DataFrame :=
  score ← get_col df "Score";
  rating ← get_col df "Rating_Users";
  episodes ← get_col df "Episodes";
  type_ ← get_col df "Type";
  watching ← get_col df "Watching";
  completed ← get_col df "Completed";
  on_hold ← get_col df "On_Hold";
  dropped ← get_col df "Dropped";
  plan ← get_col df "Plan_to_Watch";
  let total :=
    sum_axis1 (nrows df)
      [cleaned_status watching; cleaned_status completed; cleaned_status on_hold;
       cleaned_status dropped; cleaned_status plan] in
  Ok (Frame (nrows df)
        (<["Completion_Rate" := completion_rate (cleaned_status completed) total]>
        (<["Total_Watchers" := total]>
        (<["Plan_to_Watch" := cleaned_status plan]>
        (<["Dropped" := cleaned_status dropped]>
        (<["On_Hold" := cleaned_status on_hold]>
        (<["Completed" := cleaned_status completed]>
        (<["Watching" := cleaned_status watching]>
        (<["Type" := fillna (CStr "Other") type_]>
        (<["Episodes" := to_numeric (replace_unknown episodes)]>
        (<["Rating_Users" := cleaned_rating rating]>
        (<["Score" := to_numeric score]> (cols df))))))))))))).

(** The columns [clean_anime_data] reads. *)
Definition required_cols : list string :=
  ["Score"; "Rating_Users"; "Episodes"; "Type"] ++ status_cols.


(** A column of scores in descending order with the missing ones last:
    of two neighbours, the second is NaN, or neither is and the first is
    the larger or equal one. *)
Definition descending_nan_last (l : list float64) : Prop :=
  ∀ i x y, l !! i = Some x → l !! S i = Some y →
           is_nan y = true ∨ (is_nan x = false ∧ fle y x).

(** The rows of a column at the positions of an indexer (positions
    outside the column read as NaN). *)
Definition rows_at (indexer : list nat) (col : list cell) : list cell :=
  (λ i, nth i col (CNum NaN)) <$> indexer.



(** One value of the Completion_Rate column, from the Completed and
    Total_Watchers values of the row. *)
Definition rate_of (completed total : float64) : float64 :=
  let r := round2 (fmul (fdiv completed total) (Fin 100)) in
  if is_nan r then Fin 0 else r.











(** ** Further views of the crawl *)

Definition is_log (ev : event) : bool :=
  match ev with EvLog _ _ => true | EvSleep _ _ => false end.

(** The events of a trace that are no log records: the sleeps. *)
Definition sleeps_of (tr : list event) : list event :=
  List.filter (λ ev, negb (is_log ev)) tr.

(** What the variable [title] of [parse_top_anime] holds after the loop
    has gone over [rows], when it held [t] before. *)
Definition title_after (t : option string) (rows : list entry) : option string :=
  foldl (λ t e, match extract_rank_title e with
                | Ok (_, _, title) => Some title
                | Raise _ => t
                end) t rows.

(** The five viewer counts of a detail record are not negative. *)
Definition counts_nonneg (d : details) : Prop :=
  (0 ≤ Watching d)%Z ∧ (0 ≤ Completed d)%Z ∧ (0 ≤ On_Hold d)%Z
  ∧ (0 ≤ Dropped d)%Z ∧ (0 ≤ Plan_to_Watch d)%Z.

(** A detail page whose text shows a count made of commas only, and one
    whose Type label is followed by a tag. *)
Definition commas_only_page : soup :=
  {| find_span := λ label,
       if String.eqb label "Type:" then Some (SibString " TV ") else None;
     genre_spans := ["Action"];
     get_text := "Watching: 1,234 Completed: , On-Hold: 7";
     page_strings := []; ranking_rows := [] |}.

Definition tag_sibling_page : soup :=
  {| find_span := λ label,
       if String.eqb label "Aired:" then Some SibTag
       else if String.eqb label "Type:" then Some (SibString "Movie")
       else None;
     genre_spans := ["Action"];
     get_text := "Watching: 1,234";
     page_strings := []; ranking_rows := [] |}.

(** A listing row whose rank cell is missing. *)
Definition row_without_rank : entry :=
  {| rank_td := None;
     title_h3 := Some (Some (Anchor "Delta" (Some "/anime/4")));
     score_td := Some (ScoreCell (Some "7.00") "7.00") |}.


(** The status names searched in the page text, and the labels of the
    six labelled fields. *)
Definition stat_labels : list string :=
  ["Watching"; "Completed"; "On-Hold"; "Dropped"; "Plan to Watch"].

Definition field_labels : list string :=
  ["Type:"; "Episodes:"; "Duration:"; "Source:"; "Aired:"; "Season:"].



(** The sample site, with a time-out on the second listing page. *)
Definition second_listing_fails : nat → string → http_result :=
  λ n url, if String.eqb url (listing_url 50)
           then GetRaises (Exn RequestException "Read timed out")
           else site sample_listing sample_detail n url.


(** A cell that holds a number (NaN included), and one that holds a
    number that is not NaN. *)
Definition is_number (c : cell) : Prop := ∃ v, c = CNum v.
Definition is_present_number (c : cell) : Prop := ∃ v, c = CNum v ∧ is_nan v = false.




Definition repo_without_csv : world :=
  {| net := λ _ _, Response 200 empty_soup; requests := 0; trace := [];
     dirs := {[ []; ["repo"]; ["repo"; "data"]; ["repo"; "src"] ]};
     files := ∅ |}.


(** * Properties *)

Local Open Scope list_scope.

Ltac unfold_M :=
  unfold mbind, M_bind, mret, M_ret, lift, raise, try_except_when, try_except,
    logging_error, logging_info, sleep_uniform, emit, session_get in *.

Section Collector.
Context `{ExternalLibs}.

Lemma fetch_page_spec s url w :
  ∃ tr, fetch_page s url w =
          (fetch_outcome (net w (requests w) url) url,
           World (net w) (S (requests w)) (tr ++ trace w) (dirs w) (files w))
        ∧ entry_errors tr = 0%nat.
Proof.
  unfold fetch_page, fetch_outcome. unfold_M. simpl.
  destruct (net w (requests w) url) as [e|status content]; simpl.
  - destruct (is_RequestException e); simpl.
    + by exists [EvLog ERROR (MsgErrorFetching url e)].
    + by exists [].
  - unfold raise_for_status.
    destruct ((400 <=? status)%Z && (status <? 600)%Z); simpl.
    + by eexists [EvLog ERROR (MsgErrorFetching url _)].
    + by exists [].
Qed.

Lemma parse_anime_details_spec s url w :
  ∃ tr, parse_anime_details s url w =
          (Ok (details_of_response (net w (requests w) url) url),
           World (net w) (S (requests w)) (tr ++ trace w) (dirs w) (files w))
        ∧ entry_errors tr = 0%nat.
Proof.
  destruct (fetch_page_spec s url w) as (tr & Hf & Htr).
  unfold parse_anime_details, parse_anime_details_try, details_of_response,
    detail_outcome.
  unfold_M. rewrite Hf. simpl.
  destruct (fetch_outcome _ _) as [doc|e]; simpl.
  - destruct (extract_detail_fields doc) as [d|e]; simpl.
    + by exists tr.
    + unfold log_event; simpl.
      by eexists (EvLog ERROR (MsgErrorParsingDetails url e) :: tr).
  - unfold log_event; simpl.
    by eexists (EvLog ERROR (MsgErrorParsingDetails url e) :: tr).
Qed.

Lemma crawl_rows_length server n rows :
  length (crawl_rows server n rows) = length (List.filter entry_ok rows).
Proof.
  revert n. induction rows as [|e rows IH]; intros n; [done|].
  simpl. unfold entry_ok.
  destruct (extract_listing_entry e) as [[[[[rank title] link] score] ru]|ex]; simpl;
    by rewrite IH.
Qed.

Lemma process_entry_spec s st e w :
  ∃ tr t,
    process_entry s st e w =
      (Ok (LoopState (anime_list st ++ crawl_rows (net w) (requests w) [e]) t),
       World (net w) (requests w + length (crawl_rows (net w) (requests w) [e]))
             (tr ++ trace w) (dirs w) (files w))
    ∧ entry_errors tr = (if entry_ok e then 0 else 1)%nat.
Proof.
  unfold process_entry, entry_ok. simpl. unfold extract_listing_entry.
  destruct (extract_rank_title e) as [[[rank title_tag] title]|ex]; simpl.
  - destruct (extract_link_score e title_tag) as [[[link score] ru]|ex] eqn:Hls; simpl.
    + unfold_M. simpl.
      destruct (parse_anime_details_spec s link w) as (tr & Hd & Htr).
      unfold_M. rewrite Hd. simpl. unfold log_event. simpl.
      exists (EvSleep 5 10 :: tr), (Some title). split; [|done].
      do 3 f_equal. lia.
    + unfold_M. simpl. unfold log_event. simpl.
      eexists [_], (Some title). rewrite app_nil_r, Nat.add_0_r. done.
  - unfold_M. simpl. unfold log_event. simpl.
    eexists [_], (title_local st). rewrite app_nil_r, Nat.add_0_r.
    destruct st. done.
Qed.

Lemma crawl_rows_cons server n e rows :
  crawl_rows server n (e :: rows) =
    (crawl_rows server n [e] ++
     crawl_rows server (n + length (crawl_rows server n [e])) rows)%list.
Proof.
  simpl.
  destruct (extract_listing_entry e) as [[[[[rank title] link] score] ru]|ex]; simpl.
  - by replace (n + 1)%nat with (S n) by lia.
  - by rewrite Nat.add_0_r.
Qed.

Lemma for_entries_spec s rows : ∀ st w,
  ∃ tr t,
    for_entries s st rows w =
      (Ok (LoopState (anime_list st ++ crawl_rows (net w) (requests w) rows) t),
       World (net w) (requests w + length (crawl_rows (net w) (requests w) rows))
             (tr ++ trace w) (dirs w) (files w))
    ∧ entry_errors tr = length (List.filter (λ e, negb (entry_ok e)) rows).
Proof.
  induction rows as [|e rows IH]; intros st w.
  - exists [], (title_local st). simpl. unfold_M.
    rewrite app_nil_r, Nat.add_0_r. by destruct st, w.
  - destruct (process_entry_spec s st e w) as (tr1 & t1 & H1 & E1).
    rewrite crawl_rows_cons.
    set (one := crawl_rows (net w) (requests w) [e]) in *.
    change (for_entries s st (e :: rows) w)
      with (mbind (λ st', for_entries s st' rows) (process_entry s st e) w).
    unfold mbind, M_bind. rewrite H1.
    match goal with |- context [for_entries s ?st' rows ?w'] =>
      destruct (IH st' w') as (tr2 & t2 & H2 & E2) end.
    rewrite H2. cbn [net requests trace dirs files anime_list].
    exists (tr2 ++ tr1), t2. split.
    + by rewrite <- !app_assoc, length_app, Nat.add_assoc.
    + unfold entry_errors in *.
      rewrite List.filter_app, length_app, E1, E2.
      cbn [List.filter]. destruct (entry_ok e); simpl; lia.
Qed.

Lemma parse_top_anime_spec s page w :
  ∃ tr,
    parse_top_anime s page w =
      (Ok (crawl_rows (net w) (requests w) (ranking_rows page)),
       World (net w)
             (requests w + length (crawl_rows (net w) (requests w) (ranking_rows page)))
             (tr ++ trace w) (dirs w) (files w))
    ∧ entry_errors tr = length (List.filter (λ e, negb (entry_ok e)) (ranking_rows page)).
Proof.
  unfold parse_top_anime. unfold mbind, M_bind.
  destruct (for_entries_spec s (ranking_rows page) (LoopState [] None) w)
    as (tr & t & Hrun & E).
  rewrite Hrun. simpl. by exists tr.
Qed.

End Collector.

Section CollectorClaims.
Context `{ExternalLibs}.

Lemma details_of_response_failed r url e :
  detail_outcome r url = Raise e → details_of_response r url = default_details.
Proof. unfold details_of_response. by intros ->. Qed.

Lemma crawl_rows_all_ok server rows : ∀ n i e rank title link score ru,
  Forall (λ e, entry_ok e = true) rows →
  rows !! i = Some e →
  extract_listing_entry e = Ok (rank, title, link, score, ru) →
  crawl_rows server n rows !! i =
    Some {| Rank := rank; Title := title; Score := score; Rating_Users := ru;
            Detail := details_of_response (server (n + i)%nat link) link |}.
Proof.
  induction rows as [|e0 rows IH]; intros n i e rank title link score ru Hall Hi He;
    [done|].
  apply Forall_cons in Hall as [H0 Hall].
  destruct i as [|i]; simpl in Hi.
  - injection Hi as ->. simpl. rewrite He. simpl. by rewrite Nat.add_0_r.
  - simpl. unfold entry_ok in H0.
    destruct (extract_listing_entry e0) as [[[[[r0 t0] l0] s0] u0]|ex]; [|done].
    simpl. rewrite (IH (S n) i e rank title link score ru Hall Hi He).
    by replace (S n + i)%nat with (n + S i)%nat by lia.
Qed.

Lemma parse_anime_details_try_outcome s url w :
  (parse_anime_details_try s url w).1 = detail_outcome (net w (requests w) url) url.
Proof.
  unfold parse_anime_details_try, detail_outcome.
  destruct (fetch_page_spec s url w) as (tr & Hf & _).
  unfold_M. rewrite Hf. by destruct (fetch_outcome _ _).
Qed.

(** C1: [parse_anime_details] never raises; whenever its [try] block
    raises, be it in the fetch or in the extraction, the result is the
    all-default detail record; and a listing page whose rows all parse
    yields one record per row whatever the detail fetches do, the record
    of a row whose detail page raised holding the default detail fields. *)
Theorem parse_anime_details_failure_is_local s url w :
  (∃ d w', parse_anime_details s url w = (Ok d, w')
           ∧ ∀ e, (parse_anime_details_try s url w).1 = Raise e → d = default_details)
  ∧ ∀ page,
      Forall (λ e, entry_ok e = true) (ranking_rows page) →
      ∃ records w',
        parse_top_anime s page w = (Ok records, w')
        ∧ length records = length (ranking_rows page)
        ∧ ∀ i e rank title link score ru ex,
            ranking_rows page !! i = Some e →
            extract_listing_entry e = Ok (rank, title, link, score, ru) →
            detail_outcome (net w (requests w + i)%nat link) link = Raise ex →
            records !! i =
              Some {| Rank := rank; Title := title; Score := score;
                      Rating_Users := ru; Detail := default_details |}.
Proof.
  split.
  - destruct (parse_anime_details_spec s url w) as (tr & Hd & _).
    eexists _, _. split; [exact Hd|].
    intros e He. rewrite parse_anime_details_try_outcome in He.
    by apply details_of_response_failed with e.
  - intros page Hall.
    destruct (parse_top_anime_spec s page w) as (tr & Hrun & _).
    eexists _, _. split; [exact Hrun|]. split.
    + rewrite crawl_rows_length.
      f_equal. clear Hrun. induction Hall as [|e rows He _ IH]; [done|].
      simpl. rewrite He. by f_equal.
    + intros i e rank title link score ru ex Hi He Hfail.
      rewrite (crawl_rows_all_ok _ _ _ _ _ _ _ _ _ _ Hall Hi He).
      by rewrite (details_of_response_failed _ _ _ Hfail).
Qed.

(** C2: [parse_top_anime] never raises; it returns one record per row
    that parses, and logs one error per row that does not. *)
Theorem parse_top_anime_skips_failing_rows s page w :
  ∃ records w' tr,
    parse_top_anime s page w = (Ok records, w')
    ∧ length records = length (List.filter entry_ok (ranking_rows page))
    ∧ trace w' = tr ++ trace w
    ∧ entry_errors tr
      = length (List.filter (λ e, negb (entry_ok e)) (ranking_rows page)).
Proof.
  destruct (parse_top_anime_spec s page w) as (tr & Hrun & Herr).
  eexists _, _, tr. split; [exact Hrun|].
  split; [apply crawl_rows_length|]. by split.
Qed.

End CollectorClaims.

(** The second of three detail fetches times out: three records, the
    second with the default detail fields. *)
Lemma parse_anime_details_failure_is_local_witness :
  ∃ records w',
    parse_top_anime (H:=stable_libs) create_session sample_listing
      (sample_world second_request_fails) = (Ok records, w')
    ∧ length records = 3%nat
    ∧ Detail <$> records !! 1%nat = Some default_details.
Proof.
  destruct (parse_anime_details_failure_is_local (H:=stable_libs) create_session ""
              (sample_world second_request_fails)) as [_ Hcrawl].
  destruct (Hcrawl sample_listing) as (records & w' & Hrun & Hlen & Hdef).
  { repeat constructor. }
  exists records, w'. split; [exact Hrun|]. split; [exact Hlen|].
  erewrite (Hdef 1%nat); [reflexivity|reflexivity|vm_compute; reflexivity|reflexivity].
Defined.

(** ** Text facts used by the season inference *)

Lemma isdigit_not_space c : Py.char_isdigit c = true → Py.char_isspace c = false.
Proof. destruct c as [[] [] [] [] [] [] [] []]; vm_compute; congruence. Qed.

Lemma int_unsigned c d :
  Py.char_isdigit c = true →
  Py.strip (String c d) = String c d →
  Py.int (String c d) = Py.int_digits 0 false (String c d).
Proof.
  intros Hc Hs. unfold Py.int. rewrite Hs.
  destruct c as [[] [] [] [] [] [] [] []]; try reflexivity;
    vm_compute in Hc; discriminate.
Qed.

Lemma rstrip_digits s : Py.all_chars Py.char_isdigit s = true → Py.rstrip s = s.
Proof.
  induction s as [|c s IH]; [done|]. simpl.
  intros [Hc Hs]%andb_prop. rewrite (IH Hs).
  destruct s; [|done]. by rewrite (isdigit_not_space c Hc).
Qed.

Lemma strip_digits s : Py.all_chars Py.char_isdigit s = true → Py.strip s = s.
Proof.
  intros Hs. unfold Py.strip.
  replace (Py.lstrip s) with s; [by apply rstrip_digits|].
  destruct s as [|c s]; [done|]. simpl in *.
  apply andb_prop in Hs as [Hc _]. by rewrite (isdigit_not_space c Hc).
Qed.

Lemma int_digits_value s : ∀ acc prev n,
  Py.all_chars Py.char_isdigit s = true →
  Py.int_digits acc prev s = Some n → n = decimal_value_from acc s.
Proof.
  induction s as [|c s IH]; intros acc prev n Hs Hn; simpl in *.
  - destruct prev; congruence.
  - apply andb_prop in Hs as [Hc Hs].
    destruct (Py.is_decimal c) eqn:Hd; [by eapply IH|].
    destruct (Ascii.eqb c "_") eqn:Hu; [|done].
    apply Ascii.eqb_eq in Hu as ->. done.
Qed.

Lemma digit_val_nonneg c : Py.is_decimal c = true → (0 ≤ Py.digit_val c)%Z.
Proof.
  unfold Py.is_decimal, Py.digit_val. intros [H1 _]%andb_prop.
  apply N.leb_le in H1. lia.
Qed.

Lemma int_digits_nonneg s : ∀ acc prev n,
  (0 ≤ acc)%Z → Py.int_digits acc prev s = Some n → (0 ≤ n)%Z.
Proof.
  induction s as [|c s IH]; intros acc prev n Hacc Hn; simpl in *.
  - destruct prev; congruence.
  - destruct (Py.is_decimal c) eqn:Hd.
    + eapply IH; [|exact Hn]. pose proof (digit_val_nonneg c Hd). lia.
    + destruct (Ascii.eqb c "_"); [|done]. destruct prev; [|done]. by eapply IH.
Qed.

Lemma int_of_digit_string s n :
  Py.all_chars Py.char_isdigit s = true →
  Py.int s = Some n → n = decimal_value s ∧ (0 ≤ n)%Z.
Proof.
  intros Hs.
  destruct s as [|c d].
  - vm_compute. congruence.
  - pose proof Hs as Hs'. simpl in Hs'. apply andb_prop in Hs' as [Hc _].
    rewrite (int_unsigned c d Hc (strip_digits _ Hs)). intros Hn. split.
    + by eapply int_digits_value.
    + by eapply int_digits_nonneg.
Qed.

Lemma filter_chars_all p s : Py.all_chars p (Py.filter_chars p s) = true.
Proof.
  induction s as [|c s IH]; [done|]. simpl.
  destruct (p c) eqn:Hc; [|done]. simpl. by rewrite Hc.
Qed.

Lemma infer_season_number_value doc type_ n :
  infer_season_number doc type_ = Ok n →
  n = season_number_of doc type_ ∧ (0 ≤ n)%Z.
Proof.
  unfold infer_season_number, season_number_of.
  destruct (Py.startswith "TV" type_); [|intros [= <-]; done].
  destruct (find_season_string doc) as [fragment|]; [|intros [= <-]; done].
  unfold Py.join_filter_isdigit.
  pose proof (filter_chars_all Py.char_isdigit fragment) as Hall.
  destruct (Py.filter_chars Py.char_isdigit fragment) as [|c d] eqn:Hdigits.
  { simpl. intros [= <-]. done. }
  unfold Py.isdigit. rewrite Hall.
  destruct (Py.int (String c d)) as [m|] eqn:Hint; [|done].
  intros [= <-]. by apply int_of_digit_string.
Qed.

Lemma extract_detail_fields_season doc d :
  extract_detail_fields doc = Ok d →
  infer_season_number doc (Type_ d) = Ok (Season_Number d).
Proof.
  unfold extract_detail_fields. unfold mbind, result_bind, mret, result_ret.
  repeat match goal with
         | |- context [match ?r with Ok _ => _ | Raise _ => _ end] =>
             destruct r eqn:?; [|discriminate]
         end.
  by intros [= <-].
Qed.

(** C5, as the code has it: [parse_anime_details] always returns a
    record whose Season_Number is not negative; when the detail fields of
    the page could be read, it is 1 unless the Type starts with "TV" and
    the first text fragment containing "Season" has digits, and then it is
    the number that all the digits of the fragment spell, in the order
    met; when they could not be read it is the default, 1. *)
Theorem season_number_inference s url w :
  ∃ d w',
    parse_anime_details s url w = (Ok d, w')
    ∧ (0 ≤ Season_Number d)%Z
    ∧ (∀ doc d0,
         fetch_outcome (net w (requests w) url) url = Ok doc →
         extract_detail_fields doc = Ok d0 →
         d = d0 ∧ Season_Number d = season_number_of doc (Type_ d))
    ∧ (∀ e, detail_outcome (net w (requests w) url) url = Raise e →
            Season_Number d = 1%Z).
Proof.
  destruct (parse_anime_details_spec s url w) as (tr & Hd & _).
  eexists _, _. split; [exact Hd|].
  unfold details_of_response, detail_outcome.
  destruct (fetch_outcome _ _) as [doc|e]; simpl.
  - destruct (extract_detail_fields doc) as [d|e] eqn:Hx; simpl.
    + pose proof (extract_detail_fields_season doc d Hx) as Hs.
      apply infer_season_number_value in Hs as [Hv Hpos].
      split; [done|]. split; [|done].
      intros doc' d0 [= <-]. rewrite Hx. by intros [= <-].
    + split; [done|]. split; [|done].
      intros doc' d0 [= <-]. by rewrite Hx.
  - split; [done|]. split; [|done]. done.
Qed.

(** C5 as the specification words it fails on a page whose fragment is
    "Season 2 Part 2": the code answers 22, the first run of digits is 2;
    and on a fragment "Season 0" the code answers 0, which is not
    positive. *)
Lemma season_number_counterexample :
  (∃ d, run (parse_anime_details create_session "/anime/1")
            (sample_world (always (tv_page "Season 2 Part 2"))) = Ok d
        ∧ Season_Number d = 22%Z
        ∧ spec_season_number (tv_page "Season 2 Part 2") (Type_ d) = 2%Z)
  ∧ (∃ d, run (parse_anime_details create_session "/anime/1")
              (sample_world (always (tv_page "Season 0"))) = Ok d
          ∧ ¬ (0 < Season_Number d)%Z).
Proof.
  split; eexists; (split; [vm_compute; reflexivity|]); vm_compute; [done|].
  intros [=].
Qed.

(** On the sample detail page, whose first fragment with "Season" is
    "2nd Season", the inferred number is 2. *)
Lemma season_number_inference_witness :
  ∃ d w',
    parse_anime_details create_session "/anime/1" (sample_world (always sample_detail))
      = (Ok d, w')
    ∧ Season_Number d = 2%Z.
Proof.
  destruct (season_number_inference create_session "/anime/1"
              (sample_world (always sample_detail)))
    as (d & w' & Hrun & _ & Hval & _).
  exists d, w'. split; [exact Hrun|].
  destruct (Hval sample_detail (details_of_response (Response 200 sample_detail) ""))
    as [-> Hs]; [reflexivity|vm_compute; reflexivity|].
  rewrite Hs. vm_compute. reflexivity.
Defined.

Section Crawl.
Context `{ExternalLibs}.

(** C6, the part the code misses: a row without score cell gets the
    score 0.0, and then the read of the rating text raises on the absent
    cell; the row is skipped and no record is emitted for it. *)
Theorem row_without_score_cell_is_skipped s w :
  extract_listing_entry row_without_score = Raise (attribute_error "get_text")
  ∧ ∃ w', parse_top_anime s (listing_of [row_without_score]) w = (Ok [], w').
Proof.
  split; [reflexivity|].
  destruct (parse_top_anime_spec s (listing_of [row_without_score]) w) as (tr & Hrun & _).
  eexists. exact Hrun.
Qed.

(** The part of C6 the code does: with a score cell whose text has no
    "by N users", the number of rating users is 0 and the row parses when
    its other cells do. *)
Lemma rating_users_default e title_tag link score ru :
  extract_link_score e title_tag = Ok (link, score, ru) →
  (∃ td, score_td e = Some td ∧
         (Py.search_users (cell_text td) = None → ru = 0%Z)).
Proof.
  unfold extract_link_score. unfold mbind, result_bind, mret, result_ret.
  destruct (a_href title_tag); [|done].
  destruct (score_td e) as [td|]; [|done].
  destruct (span_text td); [|done].
  destruct (py_float _); [|done].
  intros Hru. exists td. split; [done|]. intros Hnone. rewrite Hnone in Hru.
  by injection Hru as _ _ <-.
Qed.

Lemma crawl_rows_ranks server rows : ∀ n,
  Rank <$> crawl_rows server n rows = rank_cell <$> List.filter entry_ok rows.
Proof.
  induction rows as [|e rows IH]; intros n; [done|].
  simpl. unfold entry_ok.
  destruct (extract_listing_entry e) as [[[[[rank title] link] score] ru]|ex] eqn:He;
    simpl; [|by apply IH].
  rewrite IH. f_equal. unfold rank_cell. by rewrite He.
Qed.

Lemma for_offsets_spec s offsets : ∀ acc w,
  ∃ tr n',
    for_offsets s acc offsets w =
      (match crawl_pages (net w) (requests w) offsets with
       | Ok found => Ok (acc ++ found)
       | Raise e => Raise e
       end,
       World (net w) n' (tr ++ trace w) (dirs w) (files w)).
Proof.
  induction offsets as [|offset rest IH]; intros acc w.
  - exists [], (requests w). simpl. unfold_M. rewrite app_nil_r. by destruct w.
  - simpl for_offsets. unfold fetch_listing.
    unfold mbind at 1 2 3, M_bind at 1 2 3. unfold logging_info, emit.
    destruct (fetch_page_spec s (listing_url offset)
                (log_event (EvLog INFO (MsgFetchingPage offset)) w)) as (tr1 & Hf & _).
    rewrite Hf. simpl crawl_pages. simpl net. simpl requests.
    destruct (fetch_outcome _ _) as [page|e]; simpl.
    + match goal with |- context [_ {| net := net w; requests := ?n1; trace := ?t1;
                                        dirs := dirs w; files := files w |}] =>
        destruct (parse_top_anime_spec s page
                    (World (net w) n1 t1 (dirs w) (files w))) as (tr2 & Hp & _) end.
      unfold mbind at 1, M_bind at 1. rewrite Hp.
      unfold sleep_uniform, emit, log_event, mbind, M_bind, mret, M_ret.
      cbn [net requests trace dirs files].
      match goal with |- context [for_offsets s ?acc' rest ?w2] =>
        destruct (IH acc' w2) as (tr3 & n3 & H3) end.
      rewrite H3. cbn [net requests trace dirs files].
      rewrite Nat.add_succ_l.
      destruct (crawl_pages _ _ rest) as [later|e]; simpl.
      * eexists (tr3 ++ EvSleep 2 4 :: tr2 ++ tr1 ++ [_]), n3.
        rewrite <- !app_assoc. simpl. rewrite <- !app_assoc. done.
      * eexists (tr3 ++ EvSleep 2 4 :: tr2 ++ tr1 ++ [_]), n3.
        rewrite <- !app_assoc. simpl. rewrite <- !app_assoc. done.
    + eexists (tr1 ++ [_]), _. rewrite <- !app_assoc. done.
Qed.

Lemma crawl_pages_ranks server offsets : ∀ n found,
  crawl_pages server n offsets = Ok found →
  ∃ rows, parsed_rows server n offsets = Some rows
          ∧ Rank <$> found = rank_cell <$> rows.
Proof.
  induction offsets as [|offset rest IH]; intros n found; simpl.
  - intros [= <-]. by exists [].
  - unfold mbind, result_bind.
    destruct (fetch_outcome _ _) as [page|e]; [|done].
    rewrite crawl_rows_length.
    destruct (crawl_pages _ _ rest) as [later|e] eqn:Hlater; [|done].
    intros [= <-]. destruct (IH _ _ Hlater) as (rows & -> & Hranks).
    eexists. split; [reflexivity|].
    by rewrite !fmap_app, crawl_rows_ranks, Hranks.
Qed.

Lemma parsed_rows_crawl_pages server offsets : ∀ n rows,
  parsed_rows server n offsets = Some rows →
  ∃ found, crawl_pages server n offsets = Ok found.
Proof.
  induction offsets as [|offset rest IH]; intros n rows; simpl.
  - by eexists.
  - unfold mbind, result_bind.
    destruct (fetch_outcome _ _) as [page|e]; [|done].
    rewrite crawl_rows_length.
    destruct (parsed_rows _ _ rest) as [later|] eqn:Hlater; [|done].
    intros _. destruct (IH _ _ Hlater) as (found & ->). by eexists.
Qed.

(** C7, as the code has it: when every listing page can be fetched the
    run over the pages returns its records in the order the rows that
    parse are met, page after page, nothing being sorted: the i-th record
    holds the rank written in the i-th such row. The ranks are those the
    pages show, so they are unique when the pages show distinct ones. *)
Theorem records_follow_listing_order s offsets w rows :
  parsed_rows (net w) (requests w) offsets = Some rows →
  ∃ records w',
    for_offsets s [] offsets w = (Ok records, w')
    ∧ Rank <$> records = rank_cell <$> rows
    ∧ (NoDup (rank_cell <$> rows) → NoDup (Rank <$> records)).
Proof.
  intros Hrows.
  destruct (parsed_rows_crawl_pages _ _ _ _ Hrows) as (found & Hfound).
  destruct (for_offsets_spec s offsets [] w) as (tr & n' & Hrun).
  rewrite Hfound in Hrun. simpl in Hrun.
  destruct (crawl_pages_ranks _ _ _ _ Hfound) as (rows' & Hrows' & Hranks).
  assert (rows' = rows) as -> by congruence.
  eexists _, _. split; [exact Hrun|]. split; [done|]. by rewrite Hranks.
Qed.

(** C8: [save_data] on an empty list raises before it touches anything,
    and a run that collects no record ends with that error, the
    directories and files being what they were. *)
Theorem no_records_no_output script_dir filepath w :
  save_data [] filepath w = (Raise (Exn AnimeScraperError "No data to save"), w)
  ∧ (crawl_pages (net w) (requests w) [0; 50; 100]%Z = Ok [] →
     ∃ w', scrape_main script_dir w = (Raise (Exn AnimeScraperError "No data to save"), w')
           ∧ dirs w' = dirs w ∧ files w' = files w).
Proof.
  split; [reflexivity|]. intros Hcrawl.
  unfold scrape_main, try_except. unfold mbind at 1, M_bind at 1.
  destruct (for_offsets_spec create_session [0; 50; 100]%Z [] w) as (tr & n' & Hrun).
  rewrite Hcrawl in Hrun. rewrite Hrun. simpl.
  unfold_M. simpl. by eexists.
Qed.

End Crawl.

(** Two rows that both show rank 1 give two records with Rank 1: the
    ranks of C7 are not unique, and the second record does not hold the
    rank of its position. *)
Lemma duplicate_rank_counterexample :
  ∃ records,
    run (for_offsets (H:=stable_libs) create_session [] [0%Z])
        (sample_world (site (listing_of [sample_row "1" "Alpha" "/anime/1" "9.10";
                                         sample_row "1" "Beta" "/anime/2" "9.00"])
                            sample_detail)) = Ok records
    ∧ Rank <$> records = [1; 1]%Z
    ∧ ¬ NoDup (Rank <$> records).
Proof.
  eexists. split; [vm_compute; reflexivity|]. split; [reflexivity|].
  intros Hnd. apply NoDup_cons in Hnd as [Hnotin _]. apply Hnotin. by left.
Qed.

(** On the sample site the three pages give nine records in page order. *)
Lemma records_follow_listing_order_witness :
  ∃ records w',
    for_offsets (H:=stable_libs) create_session [] [0; 50; 100]%Z
      (sample_world (site sample_listing sample_detail)) = (Ok records, w')
    ∧ Rank <$> records = [1; 2; 3; 1; 2; 3; 1; 2; 3]%Z.
Proof.
  destruct (records_follow_listing_order (H:=stable_libs) create_session [0; 50; 100]%Z
              (sample_world (site sample_listing sample_detail))
              (ranking_rows sample_listing ++ ranking_rows sample_listing
               ++ ranking_rows sample_listing))
    as (records & w' & Hrun & Hranks & _); [vm_compute; reflexivity|].
  exists records, w'. split; [exact Hrun|]. rewrite Hranks. vm_compute. reflexivity.
Defined.

(** A server with empty listing pages: the run raises and writes nothing. *)
Lemma no_records_no_output_witness :
  ∃ w', scrape_main (H:=stable_libs) ["repo"; "src"] empty_world
          = (Raise (Exn AnimeScraperError "No data to save"), w')
        ∧ dirs w' = dirs empty_world ∧ files w' = files empty_world.
Proof.
  apply (no_records_no_output (H:=stable_libs) ["repo"; "src"] [] empty_world).
  vm_compute. reflexivity.
Defined.

(** ** The normalizer *)

Section Normalizer.
Context `{ExternalLibs}.

Lemma get_col_set_ne df c c' col :
  c ≠ c' → get_col (set_col df c col) c' = get_col df c'.
Proof. intros Hne. unfold get_col, set_col. simpl. by rewrite lookup_insert_ne. Qed.

Lemma get_col_set_eq df c col : get_col (set_col df c col) c = Ok col.
Proof. unfold get_col, set_col. simpl. by rewrite lookup_insert_eq. Qed.

Lemma get_col_Some df c col : cols df !! c = Some col → get_col df c = Ok col.
Proof. unfold get_col. by intros ->. Qed.

Lemma get_col_None df c : cols df !! c = None → get_col df c = Raise (Exn KeyError c).
Proof. unfold get_col. by intros ->. Qed.

Lemma clean_columns_spec df w :
  ∃ tr, clean_columns df w =
          (cleaned_columns df,
           World (net w) (requests w) (tr ++ trace w) (dirs w) (files w)).
Proof.
  unfold clean_columns, cleaned_columns, status_cols.
  cbn [clean_status_cols].
  unfold mbind, M_bind, result_bind, mret, M_ret, logging_info, lift, emit, log_event.
  cbn [net requests trace dirs files].
  destruct (get_col df "Score") as [score|] eqn:Hscore; [|by eexists [_]].
  rewrite ?get_col_set_ne by done.
  destruct (get_col df "Rating_Users") as [rating|] eqn:Hrating; [|by eexists [_]].
  rewrite ?get_col_set_ne by done.
  destruct (get_col df "Episodes") as [episodes|] eqn:Hepisodes; [|by eexists [_]].
  rewrite ?get_col_set_ne by done.
  destruct (get_col df "Type") as [type_|] eqn:Htype; [|by eexists [_]].
  rewrite ?get_col_set_ne by done.
  destruct (get_col df "Watching") as [wa|] eqn:Hwa; [|by eexists [_]].
  cbn [net requests trace dirs files].
  rewrite ?get_col_set_ne by done.
  destruct (get_col df "Completed") as [co|] eqn:Hco; [|by eexists [_; _]].
  cbn [net requests trace dirs files].
  rewrite ?get_col_set_ne by done.
  destruct (get_col df "On_Hold") as [oh|] eqn:Hoh; [|by eexists [_; _; _]].
  cbn [net requests trace dirs files].
  rewrite ?get_col_set_ne by done.
  destruct (get_col df "Dropped") as [dr|] eqn:Hdr; [|by eexists [_; _; _; _]].
  cbn [net requests trace dirs files].
  rewrite ?get_col_set_ne by done.
  destruct (get_col df "Plan_to_Watch") as [pl|] eqn:Hpl; [|by eexists [_; _; _; _; _]].
  cbn [net requests trace dirs files].
  unfold get_cols. cbn [mapM]. unfold mbind, result_bind, mret, result_ret.
  repeat (rewrite get_col_set_eq || rewrite get_col_set_ne by done).
  cbn [nrows set_col cols].
  repeat (rewrite get_col_set_eq || rewrite get_col_set_ne by done).
  by eexists [_; _; _; _; _; _].
Qed.

Lemma clean_anime_data_spec df w :
  ∃ tr, clean_anime_data df w =
          (df1 ← cleaned_columns df; sort_values_score_desc df1,
           World (net w) (requests w) (tr ++ trace w) (dirs w) (files w)).
Proof.
  destruct (clean_columns_spec df w) as (tr & Hrun).
  exists tr. unfold clean_anime_data. unfold mbind at 1, M_bind. rewrite Hrun.
  unfold lift, mbind, result_bind. by destruct (cleaned_columns df).
Qed.

Lemma cleaned_columns_missing df c :
  c ∈ required_cols → cols df !! c = None →
  ∃ c', cleaned_columns df = Raise (Exn KeyError c').
Proof.
  intros Hc Hnone. unfold cleaned_columns, mbind, result_bind.
  repeat match goal with
         | |- context [get_col df ?x] =>
             let Hx := fresh "Hx" in
             destruct (cols df !! x) eqn:Hx;
             [rewrite (get_col_Some _ _ _ Hx)|rewrite (get_col_None _ _ Hx); by eexists]
         end.
  exfalso. unfold required_cols, status_cols in Hc. simpl in Hc.
  repeat (apply elem_of_cons in Hc as [->|Hc]; [congruence|]).
  by apply elem_of_nil in Hc.
Qed.

(** C10, as the code has it: a table that lacks one of the nine columns
    the normalizer reads makes [clean_anime_data] raise [KeyError]; no
    default stands in for the column. *)
Theorem missing_column_raises_KeyError df w c :
  c ∈ required_cols → cols df !! c = None →
  ∃ e w', clean_anime_data df w = (Raise e, w') ∧ exn_cls e = KeyError.
Proof.
  intros Hc Hnone.
  destruct (cleaned_columns_missing df c Hc Hnone) as (c' & Hraise).
  destruct (clean_anime_data_spec df w) as (tr & Hrun).
  rewrite Hraise in Hrun. by eexists _, _.
Qed.

End Normalizer.

(** The sample table without its Genres column is cleaned all the same:
    C10 does not hold for Genres, which the normalizer never reads. *)
Lemma missing_genres_counterexample :
  cols (Frame 2 (delete "Genres" (cols sample_raw))) !! "Genres" = None
  ∧ is_ok (run (clean_anime_data (H:=stable_libs)
                  (Frame 2 (delete "Genres" (cols sample_raw)))) empty_world) = true.
Proof. split; vm_compute; reflexivity. Qed.

(** The sample table without its Score column. *)
Lemma missing_column_raises_KeyError_witness :
  ∃ e w', clean_anime_data (H:=stable_libs)
            (Frame 2 (delete "Score" (cols sample_raw))) empty_world = (Raise e, w')
          ∧ exn_cls e = KeyError.
Proof.
  apply (missing_column_raises_KeyError (H:=stable_libs) _ _ "Score");
    [|vm_compute; reflexivity].
  unfold required_cols. apply list_elem_of_here.
Defined.


(** ** The sort *)

Section Sorting.

Lemma fleb_total_total x y : fleb_total x y = true ∨ fleb_total y x = true.
Proof.
  destruct x as [a|[]|], y as [b|[]|]; simpl; auto.
  unfold fleb_total; simpl.
  destruct (Qlt_le_dec a b) as [Hlt|Hle].
  - left. apply Qle_bool_iff. by apply Qlt_le_weak.
  - right. by apply Qle_bool_iff.
Qed.

Lemma le_key_then_pos_total p q :
  le_key_then_pos p q = true ∨ le_key_then_pos q p = true.
Proof.
  unfold le_key_then_pos.
  destruct (fleb_total_total p.2 q.2) as [Hpq|Hqp].
  - rewrite Hpq. destruct (fleb_total q.2 p.2); [|by left].
    destruct (Nat.leb_spec p.1 q.1); [by left|right]. apply Nat.leb_le. lia.
  - rewrite Hqp. destruct (fleb_total p.2 q.2); [|by right].
    destruct (Nat.leb_spec p.1 q.1); [by left|right]. apply Nat.leb_le. lia.
Qed.


Lemma zip_seq_keys (keys : list float64) :
  Forall (λ p, nth p.1 keys NaN = p.2) (zip (seq 0 (length keys)) keys).
Proof.
  apply Forall_lookup. intros i [j k] Hi.
  apply lookup_zip_with_Some in Hi as (j' & k' & [= <- <-] & Hj & Hk).
  apply lookup_seq in Hj as [-> _]. simpl. by apply nth_lookup_Some.
Qed.

Lemma Sorted_fleb_total_fle l :
  Forall (λ x, is_nan x = false) l →
  Sorted (λ x y, fleb_total x y = true) l → Sorted fle l.
Proof.
  intros Hnn Hs. induction Hs as [|x l Hs IH Hhd]; [constructor|].
  apply Forall_cons in Hnn as [Hx Hl].
  constructor; [by apply IH|].
  destruct Hhd as [|y l Hxy]; constructor.
  unfold fleb_total in Hxy. rewrite Hx in Hxy. exact Hxy.
Qed.

Lemma argsort_by_spec le :
  (∀ p q, le p q = true ∨ le q p = true) →
  (∀ p q, le p q = true → fleb_total p.2 q.2 = true) →
  argsort_spec (argsort_by le).
Proof.
  intros Htot Href keys Hnn. unfold argsort_by.
  set (l := zip (seq 0 (length keys)) keys).
  set (R := λ p q : nat * float64, Is_true (le p q)).
  assert (Total R) as HR.
  { intros p q. unfold R. destruct (Htot p q) as [->| ->]; [by left|by right]. }
  pose proof (merge_sort_Permutation R l) as Hperm.
  pose proof (Sorted_merge_sort R l) as Hsorted.
  assert (fst <$> l = seq 0 (length keys)) as Hfst.
  { unfold l. apply fst_zip. by rewrite length_seq. }
  assert (snd <$> l = keys) as Hsnd.
  { unfold l. apply snd_zip. by rewrite length_seq. }
  split.
  - by rewrite Hperm, Hfst.
  - assert (keys_at keys (fst <$> merge_sort R l) = snd <$> merge_sort R l) as ->.
    { unfold keys_at. rewrite <- list_fmap_compose.
      apply Forall_fmap_ext. rewrite Hperm. apply zip_seq_keys. }
    apply Sorted_fleb_total_fle.
    + rewrite Hperm, Hsnd. exact Hnn.
    + eapply Sorted_fmap; [|exact Hsorted].
      intros p q Hpq. apply Href. unfold R in Hpq. by destruct (le p q).
Qed.

Lemma stable_argsort_spec : argsort_spec (argsort_by le_key_then_pos).
Proof.
  apply argsort_by_spec; [apply le_key_then_pos_total|].
  intros p q. unfold le_key_then_pos. by destruct (fleb_total p.2 q.2).
Qed.


End Sorting.

Section Nargsort.
Context `{ExternalLibs}.
Hypothesis np_argsort_spec : argsort_spec np_argsort.

Lemma filter_partition_Permutation {A} (p : A → bool) (l : list A) :
  List.filter p l ++ List.filter (λ x, negb (p x)) l ≡ₚ l.
Proof.
  induction l as [|x l IH]; [done|]. simpl.
  destruct (p x); simpl; [by rewrite IH|].
  by rewrite <- Permutation_middle, IH.
Qed.

Lemma Sorted_adjacent {A} (R : relation A) l i x y :
  Sorted R l → l !! i = Some x → l !! S i = Some y → R x y.
Proof.
  intros Hs. revert i. induction Hs as [|z l Hs IH Hhd]; intros i Hx Hy; [done|].
  destruct i as [|i]; simpl in *.
  - injection Hx as ->. destruct Hhd as [|w l Hzw]; [done|].
    simpl in Hy. by injection Hy as ->.
  - by eapply IH.
Qed.

Lemma descending_nan_last_app asc nans :
  Sorted fle asc →
  Forall (λ x, is_nan x = false) asc →
  Forall (λ x, is_nan x = true) nans →
  descending_nan_last (reverse asc ++ nans).
Proof.
  intros Hs Hnn Hn i x y Hx Hy.
  destruct (decide (S i < length (reverse asc))) as [Hlt|Hge].
  - right. rewrite lookup_app_l in Hx by lia. rewrite lookup_app_l in Hy by lia.
    split.
    + apply list_elem_of_lookup_2 in Hx. rewrite elem_of_reverse in Hx.
      exact (proj1 (Forall_forall _ _) Hnn _ Hx).
    + apply Sorted_reverse in Hs. by eapply (Sorted_adjacent _ _ _ _ _ Hs).
  - left. rewrite lookup_app_r in Hy by lia.
    apply list_elem_of_lookup_2 in Hy. exact (proj1 (Forall_forall _ _) Hn _ Hy).
Qed.

Lemma nth_fmap_lookup {A B} (f : A → B) (l : list A) j a d :
  l !! j = Some a → nth j (f <$> l) d = f a.
Proof. intros Hj. apply nth_lookup_Some. by rewrite list_lookup_fmap, Hj. Qed.

Lemma nargsort_descending_perm items :
  nargsort_descending items ≡ₚ seq 0 (length items).
Proof.
  unfold nargsort_descending.
  set (indexed := zip (seq 0 (length items)) items).
  set (present := List.filter (λ p, negb (is_nan p.2)) indexed).
  set (nans := List.filter (λ p, is_nan p.2) indexed).
  destruct (np_argsort_spec (reverse (snd <$> present))) as [Hperm _].
  { apply Forall_reverse, Forall_fmap, Forall_forall. intros p Hp.
    apply list_elem_of_In, filter_In in Hp as [_ Hp]. simpl.
    by destruct (is_nan p.2). }
  rewrite reverse_Permutation, Hperm.
  assert ((λ j, nth j (reverse (fst <$> present)) 0%nat)
            <$> seq 0 (length (reverse (snd <$> present)))
          = reverse (fst <$> present)) as ->.
  { rewrite !length_reverse, !length_fmap.
    rewrite <- (length_fmap fst), <- length_reverse.
    generalize (reverse (fst <$> present)). intros l.
    apply list_eq. intros i. rewrite list_lookup_fmap.
    destruct (l !! i) as [a|] eqn:Hi.
    - rewrite (lookup_seq_lt _ _ _ (lookup_lt_Some _ _ _ Hi)). simpl.
      f_equal. by apply nth_lookup_Some.
    - rewrite lookup_seq_ge; [done|]. by apply lookup_ge_None. }
  rewrite reverse_Permutation, <- fmap_app.
  assert (present ++ nans ≡ₚ indexed) as ->.
  { etransitivity;
      [|exact (filter_partition_Permutation (λ p, negb (is_nan p.2)) indexed)].
    fold present. f_equiv. unfold nans.
    erewrite List.filter_ext; [reflexivity|].
    intros p. simpl. by rewrite negb_involutive. }
  unfold indexed. rewrite fst_zip; [done|]. by rewrite length_seq.
Qed.

Lemma nargsort_descending_keys items :
  descending_nan_last (keys_at items (nargsort_descending items)).
Proof.
  unfold nargsort_descending.
  set (indexed := zip (seq 0 (length items)) items).
  set (present := List.filter (λ p, negb (is_nan p.2)) indexed).
  set (nans := List.filter (λ p, is_nan p.2) indexed).
  assert (Forall (λ p, nth p.1 items NaN = p.2) indexed) as Hidx
    by apply zip_seq_keys.
  assert (Forall (λ x, is_nan x = false) (reverse (snd <$> present))) as Hnn.
  { apply Forall_reverse, Forall_fmap, Forall_forall. intros p Hp.
    apply list_elem_of_In, filter_In in Hp as [_ Hp]. simpl.
    by destruct (is_nan p.2). }
  destruct (np_argsort_spec (reverse (snd <$> present)) Hnn) as [Hperm Hsorted].
  set (order := np_argsort (reverse (snd <$> present))) in *.
  unfold keys_at. rewrite fmap_app, fmap_reverse, <- list_fmap_compose.
  assert (Forall (λ j, j < length (reverse present)) order) as Hrange.
  { apply Forall_forall. intros j Hj. rewrite Hperm in Hj.
    apply elem_of_seq in Hj. rewrite length_reverse, length_fmap in Hj.
    rewrite length_reverse. lia. }
  assert (((λ j, nth j items NaN) ∘ (λ j, nth j (reverse (fst <$> present)) 0%nat))
            <$> order
          = keys_at (reverse (snd <$> present)) order) as ->.
  { unfold keys_at. apply Forall_fmap_ext. eapply Forall_impl; [exact Hrange|].
    intros j Hj. simpl. apply lookup_lt_is_Some in Hj as [p Hp].
    rewrite <- !fmap_reverse.
    rewrite (nth_fmap_lookup fst _ _ _ _ Hp), (nth_fmap_lookup snd _ _ _ _ Hp).
    apply list_elem_of_lookup_2 in Hp. rewrite elem_of_reverse in Hp.
    apply list_elem_of_In, filter_In in Hp as [Hp _].
    apply list_elem_of_In in Hp. exact (proj1 (Forall_forall _ _) Hidx _ Hp). }
  apply descending_nan_last_app; [done| |].
  - unfold keys_at. apply Forall_fmap. eapply Forall_impl; [exact Hrange|].
    intros j Hj. simpl. rewrite length_reverse in Hj.
    rewrite <- length_fmap with (f := snd), <- length_reverse in Hj.
    apply lookup_lt_is_Some in Hj as [x Hx].
    rewrite (nth_lookup_Some _ _ _ _ Hx).
    apply list_elem_of_lookup_2 in Hx. exact (proj1 (Forall_forall _ _) Hnn _ Hx).
  - rewrite <- list_fmap_compose. apply Forall_fmap, Forall_forall. intros p Hp.
    apply list_elem_of_In, filter_In in Hp as [Hp Hnan]. simpl.
    apply list_elem_of_In in Hp.
    by rewrite (proj1 (Forall_forall _ _) Hidx _ Hp).
Qed.

End Nargsort.

(** ** The cleaned table *)

Section CleanedTable.
Context `{ExternalLibs}.
Hypothesis np_argsort_spec : argsort_spec np_argsort.

Lemma take_rows_rows_at indexer col : ∀ col',
  take_rows indexer col = Ok col' → col' = rows_at indexer col.
Proof.
  unfold take_rows, rows_at.
  induction indexer as [|i indexer IH]; intros col'; simpl.
  - by intros [= <-].
  - unfold mbind, result_bind, mret, result_ret.
    destruct (col !! i) as [c|] eqn:Hi; [|done].
    destruct (mapM _ indexer) as [rest|] eqn:Hrest; [|done].
    intros [= <-]. simpl. f_equal; [|by apply IH].
    symmetry. by apply nth_lookup_Some.
Qed.

Lemma take_rows_ok indexer col :
  Forall (λ i, i < length col) indexer → is_ok (take_rows indexer col) = true.
Proof.
  unfold take_rows. induction 1 as [|i indexer Hi _ IH]; [done|]. simpl.
  unfold mbind, result_bind, mret, result_ret.
  apply lookup_lt_is_Some in Hi as [c ->].
  by destruct (mapM _ indexer).
Qed.

Lemma sort_values_spec df k :
  wf_frame df → cols df !! "Score" = Some k →
  sort_values_score_desc df =
    Ok (Frame (nrows df) (rows_at (nargsort_descending (as_num <$> k)) <$> cols df)).
Proof.
  intros Hwf Hk. unfold sort_values_score_desc.
  rewrite (get_col_Some _ _ _ Hk). unfold mbind, result_bind.
  set (indexer := nargsort_descending (as_num <$> k)).
  pose proof (nargsort_descending_perm np_argsort_spec (as_num <$> k)) as Hperm.
  fold indexer in Hperm. rewrite length_fmap, (Hwf _ _ Hk) in Hperm.
  assert (∀ c col, cols df !! c = Some col → is_ok (take_rows indexer col) = true)
    as Hok.
  { intros c col Hc. apply take_rows_ok. rewrite (Hwf _ _ Hc).
    apply Forall_forall. intros i Hi. rewrite Hperm in Hi.
    apply elem_of_seq in Hi. lia. }
  rewrite bool_decide_eq_true_2 by exact Hok.
  f_equal. f_equal.
  - by rewrite Hperm, length_seq.
  - apply map_eq. intros c. rewrite lookup_omap, lookup_fmap.
    destruct (cols df !! c) as [col|] eqn:Hc; [|done]. simpl.
    specialize (Hok _ _ Hc).
    destruct (take_rows indexer col) as [col'|] eqn:Htake; [|done].
    simpl. f_equal. by apply take_rows_rows_at.
Qed.

Lemma cleaned_columns_inv df df1 :
  cleaned_columns df = Ok df1 →
  ∃ score rating episodes type_ wa co oh dr pl,
    cols df !! "Score" = Some score ∧ cols df !! "Rating_Users" = Some rating
    ∧ cols df !! "Episodes" = Some episodes ∧ cols df !! "Type" = Some type_
    ∧ cols df !! "Watching" = Some wa ∧ cols df !! "Completed" = Some co
    ∧ cols df !! "On_Hold" = Some oh ∧ cols df !! "Dropped" = Some dr
    ∧ cols df !! "Plan_to_Watch" = Some pl
    ∧ cleaned_columns df = Ok df1
    ∧ let total :=
        sum_axis1 (nrows df)
          [cleaned_status wa; cleaned_status co; cleaned_status oh;
           cleaned_status dr; cleaned_status pl] in
      df1 = Frame (nrows df)
        (<["Completion_Rate" := completion_rate (cleaned_status co) total]>
        (<["Total_Watchers" := total]>
        (<["Plan_to_Watch" := cleaned_status pl]>
        (<["Dropped" := cleaned_status dr]>
        (<["On_Hold" := cleaned_status oh]>
        (<["Completed" := cleaned_status co]>
        (<["Watching" := cleaned_status wa]>
        (<["Type" := fillna (CStr "Other") type_]>
        (<["Episodes" := to_numeric (replace_unknown episodes)]>
        (<["Rating_Users" := cleaned_rating rating]>
        (<["Score" := to_numeric score]> (cols df)))))))))))).
Proof.
  intros Hclean. pose proof Hclean as Hclean'. revert Hclean.
  unfold cleaned_columns, mbind, result_bind.
  repeat match goal with
         | |- context [get_col df ?x] =>
             let Hx := fresh "Hx" in
             destruct (cols df !! x) eqn:Hx;
             [rewrite (get_col_Some _ _ _ Hx)|by rewrite (get_col_None _ _ Hx)]
         end.
  intros [= <-]. by eexists _, _, _, _, _, _, _, _, _.
Qed.

Lemma cleaned_columns_total df :
  Forall (λ c, is_Some (cols df !! c)) required_cols →
  ∃ df1, cleaned_columns df = Ok df1.
Proof.
  intros Hall. destruct (cleaned_columns df) as [df1|e] eqn:Hclean; [by eexists|].
  exfalso. revert Hclean. unfold cleaned_columns, mbind, result_bind.
  unfold required_cols, status_cols in Hall. simpl in Hall.
  repeat (apply Forall_cons in Hall as [[? Hc] Hall];
          rewrite (get_col_Some _ _ _ Hc); clear Hc).
  done.
Qed.

Lemma length_cleaned_status col : length (cleaned_status col) = length col.
Proof. unfold cleaned_status, fillna, to_numeric. by rewrite !length_fmap. Qed.

Lemma length_cleaned_rating col : length (cleaned_rating col) = length col.
Proof.
  unfold cleaned_rating, to_numeric, str_replace_commas.
  destruct (is_object col); by rewrite !length_fmap.
Qed.

Lemma length_sum_axis1 n a b c d e :
  length a = n → length b = n → length c = n → length d = n → length e = n →
  length (sum_axis1 n [a; b; c; d; e]) = n.
Proof.
  intros. unfold sum_axis1. simpl.
  rewrite !length_zip_with, length_replicate. lia.
Qed.

Lemma length_completion_rate n a b :
  length a = n → length b = n → length (completion_rate a b) = n.
Proof.
  intros. unfold completion_rate, fillna.
  rewrite length_fmap, length_zip_with. lia.
Qed.

Lemma cleaned_columns_wf df df1 :
  wf_frame df → cleaned_columns df = Ok df1 → wf_frame df1 ∧ nrows df1 = nrows df.
Proof.
  intros Hwf Hclean.
  apply cleaned_columns_inv in Hclean
    as (score & rating & episodes & type_ & wa & co & oh & dr & pl
        & Hscore & Hrating & Hepisodes & Htype & Hwa & Hco & Hoh & Hdr & Hpl & _ & ->).
  split; [|done]. intros c col. simpl.
  pose proof (Hwf _ _ Hwa) as Lwa. pose proof (Hwf _ _ Hco) as Lco.
  pose proof (Hwf _ _ Hoh) as Loh. pose proof (Hwf _ _ Hdr) as Ldr.
  pose proof (Hwf _ _ Hpl) as Lpl. pose proof (Hwf _ _ Hscore) as Lscore.
  pose proof (Hwf _ _ Hrating) as Lrating. pose proof (Hwf _ _ Hepisodes) as Lep.
  pose proof (Hwf _ _ Htype) as Ltype. simpl in *.
  assert (length (sum_axis1 (nrows df)
            [cleaned_status wa; cleaned_status co; cleaned_status oh;
             cleaned_status dr; cleaned_status pl]) = nrows df) as Htotal
    by (apply length_sum_axis1; by rewrite length_cleaned_status).
  intros Hc.
  repeat (apply lookup_insert_Some in Hc as [[_ <-]|[_ Hc]];
          [first [ done
                 | by apply length_completion_rate; rewrite ?length_cleaned_status
                 | unfold fillna, to_numeric, replace_unknown;
                   by rewrite ?length_cleaned_status, ?length_cleaned_rating,
                        ?length_fmap ]|]).
  exact (Hwf _ _ Hc).
Qed.

End CleanedTable.

(** ** Arithmetic of the completion rate *)



Lemma Qis_zero_true q : Qis_zero q = true ↔ (q == 0)%Q.
Proof. apply Qeq_bool_iff. Qed.

Lemma Qis_zero_pos q : (0 < q)%Q → Qis_zero q = false.
Proof.
  intros Hq. destruct (Qis_zero q) eqn:Hz; [|done].
  apply Qis_zero_true in Hz. lra.
Qed.




(** With a total of zero and completed views the rate is an infinity. *)
Lemma rate_of_zero_total_infinite c :
  (0 < c)%Q → rate_of (Fin c) (Fin 0) = Inf false.
Proof.
  intros Hc. unfold rate_of. simpl. rewrite (Qis_zero_pos c Hc).
  unfold Qis_neg. assert (Qle_bool 0 c = true) as ->; [|done].
  apply Qle_bool_iff. lra.
Qed.

(** ** The rows of the cleaned output *)

Section CleanedRows.
Context `{ExternalLibs}.


Lemma as_num_rows_at indexer col :
  as_num <$> rows_at indexer col = keys_at (as_num <$> col) indexer.
Proof.
  unfold rows_at, keys_at. rewrite <- list_fmap_compose.
  apply list_fmap_ext. intros _ i _. simpl.
  change NaN with (as_num (CNum NaN)). symmetry. apply List.map_nth.
Qed.




Lemma clean_anime_data_rows df w :
  argsort_spec np_argsort → wf_frame df →
  Forall (λ c, is_Some (cols df !! c)) required_cols →
  ∃ df1 df' w' indexer,
    cleaned_columns df = Ok df1
    ∧ clean_anime_data df w = (Ok df', w')
    ∧ indexer ≡ₚ seq 0 (nrows df)
    ∧ nrows df' = nrows df
    ∧ cols df' = rows_at indexer <$> cols df1
    ∧ ∃ scores, cols df' !! "Score" = Some scores
                ∧ descending_nan_last (as_num <$> scores).
Proof.
  intros Hsort Hwf Hall.
  destruct (cleaned_columns_total df Hall) as (df1 & Hclean).
  destruct (cleaned_columns_wf df df1 Hwf Hclean) as [Hwf1 Hn1].
  pose proof Hclean as Hinv. apply cleaned_columns_inv in Hinv
    as (score & rating & episodes & type_ & wa & co & oh & dr & pl
        & Hscore & _ & _ & _ & _ & _ & _ & _ & _ & _ & Hdf1).
  assert (cols df1 !! "Score" = Some (to_numeric score)) as Hk.
  { rewrite Hdf1. simpl. rewrite !lookup_insert_ne by done. apply lookup_insert_eq. }
  pose proof (sort_values_spec Hsort df1 _ Hwf1 Hk) as Hsorted.
  destruct (clean_anime_data_spec df w) as (tr & Hrun).
  rewrite Hclean in Hrun. unfold mbind, result_bind in Hrun. rewrite Hsorted in Hrun.
  set (indexer := nargsort_descending (as_num <$> to_numeric score)) in *.
  eexists df1, _, _, indexer. split; [done|]. split; [exact Hrun|].
  split.
  { unfold indexer. rewrite (nargsort_descending_perm Hsort).
    rewrite length_fmap, (Hwf1 _ _ Hk). by rewrite Hn1. }
  split; [done|]. split; [done|].
  exists (rows_at indexer (to_numeric score)). split.
  - simpl. by rewrite lookup_fmap, Hk.
  - rewrite as_num_rows_at. apply (nargsort_descending_keys Hsort).
Qed.



End CleanedRows.

(** ** The sample tables *)

Lemma sample_raw_wf : wf_frame sample_raw.
Proof. apply (bool_decide_unpack _). vm_compute. exact I. Qed.

Lemma sample_raw_required :
  Forall (λ c, is_Some (cols sample_raw !! c)) required_cols.
Proof. repeat (constructor; [eexists; vm_compute; reflexivity|]). constructor. Qed.





(** ** The reporter *)



Section Reporter.
Context `{ExternalLibs}.




End Reporter.



(** * Further properties of the collector *)

Lemma span_chars_all p s : Py.all_chars p (Py.span_chars p s).1 = true.
Proof.
  induction s as [|c s IH]; [done|]. simpl.
  destruct (p c) eqn:Hc; [|done].
  destruct (Py.span_chars p s) as [a b]. simpl in *. by rewrite Hc.
Qed.

Lemma match_stat_here_chars label s g :
  Py.match_stat_here label s = Some g → Py.all_chars Py.is_num_or_comma g = true.
Proof.
  unfold Py.match_stat_here.
  destruct (Py.drop_prefix _ s) as [rest|]; [|done]. simpl.
  destruct (Py.span_chars Py.char_isspace rest) as [ws after] eqn:Hws.
  pose proof (span_chars_all Py.is_num_or_comma after) as Hall.
  destruct (Py.span_chars Py.is_num_or_comma after) as [num rest'].
  simpl in Hall. destruct num; [done|]. by intros [= <-].
Qed.

Lemma search_stat_chars label s g :
  Py.search_stat label s = Some g → Py.all_chars Py.is_num_or_comma g = true.
Proof.
  induction s as [|c s IH]; simpl.
  - destruct (Py.match_stat_here label "") eqn:Hm; [|done].
    intros [= <-]. by eapply match_stat_here_chars.
  - destruct (Py.match_stat_here label (String c s)) eqn:Hm; [|exact IH].
    intros [= <-]. by eapply match_stat_here_chars.
Qed.

Lemma match_users_here_chars s g :
  Py.match_users_here s = Some g → Py.all_chars Py.is_num_or_comma g = true.
Proof.
  unfold Py.match_users_here.
  destruct (Py.drop_prefix _ s) as [rest|]; [|done]. simpl.
  pose proof (span_chars_all Py.is_num_or_comma rest) as Hall.
  destruct (Py.span_chars Py.is_num_or_comma rest) as [num after].
  simpl in Hall. destruct num; [done|].
  destruct (String.prefix _ after); [|done]. by intros [= <-].
Qed.

Lemma search_users_chars s g :
  Py.search_users s = Some g → Py.all_chars Py.is_num_or_comma g = true.
Proof.
  induction s as [|c s IH]; simpl.
  - done.
  - destruct (Py.match_users_here (String c s)) eqn:Hm; [|exact IH].
    intros [= <-]. by eapply match_users_here_chars.
Qed.

Lemma remove_commas_digits g :
  Py.all_chars Py.is_num_or_comma g = true →
  Py.all_chars Py.char_isdigit (Py.remove_commas g) = true.
Proof.
  unfold Py.remove_commas. induction g as [|c g IH]; [done|]. simpl.
  intros [Hc Hg]%andb_prop. unfold Py.is_num_or_comma in Hc.
  destruct (Ascii.eqb c ",") eqn:Hcomma; simpl; [by apply IH|].
  rewrite orb_false_r in Hc. unfold Py.char_isdigit. rewrite Hc. simpl.
  by apply IH.
Qed.

(** The number read from a matched group of digits and commas. *)
Lemma int_of_group_nonneg g n :
  Py.all_chars Py.is_num_or_comma g = true →
  Py.int (Py.remove_commas g) = Some n → (0 ≤ n)%Z.
Proof.
  intros Hg Hn. apply remove_commas_digits in Hg.
  by destruct (int_of_digit_string _ _ Hg Hn).
Qed.

Lemma extract_stat_nonneg text status n :
  extract_stat text status = Ok n → (0 ≤ n)%Z.
Proof.
  unfold extract_stat.
  destruct (Py.search_stat status text) as [g|] eqn:Hg; [|by intros [= <-]].
  destruct (Py.int (Py.remove_commas g)) as [m|] eqn:Hm; [|done].
  intros [= <-]. eapply int_of_group_nonneg; [|exact Hm].
  by eapply search_stat_chars.
Qed.

Lemma extract_detail_fields_nonneg doc d :
  extract_detail_fields doc = Ok d → counts_nonneg d.
Proof.
  unfold extract_detail_fields. unfold mbind, result_bind, mret, result_ret.
  repeat match goal with
         | |- context [match ?r with Ok _ => _ | Raise _ => _ end] =>
             destruct r eqn:?; [|discriminate]
         end.
  intros [= <-]. unfold counts_nonneg. simpl.
  repeat split; by eapply extract_stat_nonneg.
Qed.

Lemma details_of_response_nonneg r url : counts_nonneg (details_of_response r url).
Proof.
  unfold details_of_response.
  destruct (detail_outcome r url) as [d|e] eqn:Hd; [|by compute].
  unfold detail_outcome, mbind, result_bind in Hd.
  destruct (fetch_outcome r url); [|done]. by eapply extract_detail_fields_nonneg.
Qed.

(** X1. What [fetch_page] does with each answer of the server: a
    response whose status is not in 400..599 gives its document and logs
    nothing; an error status or a [RequestException] is logged once and
    becomes an [AnimeScraperError]; any other exception passes unchanged
    and unlogged. Each call makes one request and leaves the files
    alone. *)
Theorem fetch_page_outcomes s url w :
  ∃ r w',
    fetch_page s url w = (r, w')
    ∧ requests w' = S (requests w) ∧ dirs w' = dirs w ∧ files w' = files w
    ∧ (∀ status doc,
         net w (requests w) url = Response status doc →
         if ((400 <=? status) && (status <? 600))%Z
         then (∃ msg, r = Raise (Exn AnimeScraperError msg))
              ∧ (∃ e, trace w' = EvLog ERROR (MsgErrorFetching url e) :: trace w)
         else r = Ok doc ∧ trace w' = trace w)
    ∧ (∀ e,
         net w (requests w) url = GetRaises e →
         if is_RequestException e
         then r = Raise (Exn AnimeScraperError ("Failed to fetch page: " ++ exn_msg e))
              ∧ trace w' = EvLog ERROR (MsgErrorFetching url e) :: trace w
         else r = Raise e ∧ trace w' = trace w).
Proof.
  unfold fetch_page. unfold_M. simpl.
  destruct (net w (requests w) url) as [e|status doc] eqn:Hnet; simpl.
  - destruct (is_RequestException e) eqn:He; simpl;
      (eexists _, _; split; [reflexivity|]; simpl;
       split; [done|]; split; [done|]; split; [done|]; split;
       [intros ? ? [=]|intros e' [= <-]; by rewrite He]).
  - unfold raise_for_status.
    destruct ((400 <=? status)%Z && (status <? 600)%Z) eqn:Hst; simpl;
      (eexists _, _; split; [reflexivity|]; simpl;
       split; [done|]; split; [done|]; split; [done|]; split;
       [intros st' doc' [= <- <-]; rewrite Hst|intros ? [=]]).
    + split; by eexists.
    + done.
Qed.

(** A server that answers 503: the page is not returned and one error is
    logged. *)
Lemma fetch_page_outcomes_witness :
  ∃ r w',
    fetch_page create_session "/anime/1"
      (sample_world (λ _ _, Response 503 empty_soup)) = (r, w')
    ∧ (∃ msg, r = Raise (Exn AnimeScraperError msg))
    ∧ length (trace w') = 1%nat.
Proof.
  destruct (fetch_page_outcomes create_session "/anime/1"
              (sample_world (λ _ _, Response 503 empty_soup)))
    as (r & w' & Hrun & _ & _ & _ & Hresp & _).
  exists r, w'. split; [exact Hrun|].
  destruct (Hresp 503%Z empty_soup eq_refl) as [Hr [e He]].
  split; [exact Hr|]. by rewrite He.
Defined.

(** X2. The five viewer counts [parse_anime_details] returns are never
    negative, whatever the page holds and whether or not the fetch or the
    extraction failed. *)
Theorem parse_anime_details_counts_nonneg s url w :
  ∃ d w', parse_anime_details s url w = (Ok d, w') ∧ counts_nonneg d.
Proof.
  destruct (parse_anime_details_spec s url w) as (tr & Hrun & _).
  eexists _, _. split; [exact Hrun|]. apply details_of_response_nonneg.
Qed.

Lemma extract_detail_fields_stat_raises doc status e :
  status ∈ stat_labels →
  extract_stat (get_text doc) status = Raise e →
  ∃ e', extract_detail_fields doc = Raise e'.
Proof.
  intros Hin He. destruct (extract_detail_fields doc) as [d|e'] eqn:Hx; [|by eexists].
  exfalso. revert Hx. unfold extract_detail_fields.
  unfold mbind, result_bind, mret, result_ret.
  repeat match goal with
         | |- context [match ?r with Ok _ => _ | Raise _ => _ end] =>
             destruct r eqn:?; [|discriminate]
         end.
  intros _. unfold stat_labels in Hin.
  repeat (apply elem_of_cons in Hin as [->|Hin]; [congruence|]).
  by apply elem_of_nil in Hin.
Qed.

Lemma extract_detail_fields_field_raises doc label e :
  label ∈ field_labels →
  extract_field doc label = Raise e →
  ∃ e', extract_detail_fields doc = Raise e'.
Proof.
  intros Hin He. destruct (extract_detail_fields doc) as [d|e'] eqn:Hx; [|by eexists].
  exfalso. revert Hx. unfold extract_detail_fields.
  unfold mbind, result_bind, mret, result_ret.
  repeat match goal with
         | |- context [match ?r with Ok _ => _ | Raise _ => _ end] =>
             destruct r eqn:?; [|discriminate]
         end.
  intros _. unfold field_labels in Hin.
  repeat (apply elem_of_cons in Hin as [->|Hin]; [congruence|]).
  by apply elem_of_nil in Hin.
Qed.

Lemma parse_anime_details_of_failed_extraction s url w doc e :
  fetch_outcome (net w (requests w) url) url = Ok doc →
  extract_detail_fields doc = Raise e →
  ∃ w', parse_anime_details s url w = (Ok default_details, w').
Proof.
  intros Hdoc Hx. destruct (parse_anime_details_spec s url w) as (tr & Hrun & _).
  eexists. rewrite Hrun. f_equal. f_equal.
  unfold details_of_response, detail_outcome, mbind, result_bind.
  by rewrite Hdoc, Hx.
Qed.

(** X3. One unreadable count costs the whole record: when the text of a
    fetched page shows one of the five status labels followed by commas
    and no digit, [int("")] raises and [parse_anime_details] returns the
    all-default record, the Type, Genres and other counts it had read
    included. *)
Theorem count_without_digit_defaults_record s url w doc status g :
  fetch_outcome (net w (requests w) url) url = Ok doc →
  status ∈ stat_labels →
  Py.search_stat status (get_text doc) = Some g →
  Py.remove_commas g = "" →
  ∃ w', parse_anime_details s url w = (Ok default_details, w').
Proof.
  intros Hdoc Hin Hg Hempty.
  destruct (extract_detail_fields_stat_raises doc status
              (Exn ValueError "invalid literal for int() with base 10") Hin)
    as (e' & Hx).
  { unfold extract_stat. by rewrite Hg, Hempty. }
  by eapply parse_anime_details_of_failed_extraction.
Qed.

(** The page shows "Completed: ,": its Type and its Watching count are
    lost with the rest. *)
Lemma count_without_digit_defaults_record_witness :
  ∃ w', parse_anime_details create_session "/anime/1"
          (sample_world (always commas_only_page)) = (Ok default_details, w').
Proof.
  apply (count_without_digit_defaults_record create_session "/anime/1"
           (sample_world (always commas_only_page)) commas_only_page "Completed" ",");
    [reflexivity| |vm_compute; reflexivity|reflexivity].
  unfold stat_labels. apply list_elem_of_further, list_elem_of_here.
Defined.

(** X4. A label whose next sibling is a tag costs the whole record: when
    one of the six labelled fields of a fetched page is followed by an
    element instead of text, the call of [strip] on it raises and
    [parse_anime_details] returns the all-default record. *)
Theorem tag_after_label_defaults_record s url w doc label :
  fetch_outcome (net w (requests w) url) url = Ok doc →
  label ∈ field_labels →
  find_span doc label = Some SibTag →
  ∃ w', parse_anime_details s url w = (Ok default_details, w').
Proof.
  intros Hdoc Hin Htag.
  destruct (extract_detail_fields_field_raises doc label
              (Exn TypeError "'NoneType' object is not callable") Hin)
    as (e' & Hx).
  { unfold extract_field. by rewrite Htag. }
  by eapply parse_anime_details_of_failed_extraction.
Qed.

(** The page has a tag after "Aired:". *)
Lemma tag_after_label_defaults_record_witness :
  ∃ w', parse_anime_details create_session "/anime/1"
          (sample_world (always tag_sibling_page)) = (Ok default_details, w').
Proof.
  apply (tag_after_label_defaults_record create_session "/anime/1"
           (sample_world (always tag_sibling_page)) tag_sibling_page "Aired:");
    [reflexivity| |reflexivity].
  unfold field_labels. do 4 apply list_elem_of_further. apply list_elem_of_here.
Defined.

Section CrawlInvariants.
Context `{ExternalLibs}.

Lemma extract_link_score_nonneg e title_tag link score ru :
  extract_link_score e title_tag = Ok (link, score, ru) → (0 ≤ ru)%Z.
Proof.
  unfold extract_link_score. unfold mbind, result_bind, mret, result_ret.
  destruct (a_href title_tag); [|done].
  destruct (score_td e) as [td|]; [|done].
  destruct (span_text td); [|done].
  destruct (py_float _); [|done].
  destruct (Py.search_users (cell_text td)) as [g|] eqn:Hg.
  - destruct (Py.int (Py.remove_commas g)) as [n|] eqn:Hn; [|done].
    intros [= _ _ <-]. eapply int_of_group_nonneg; [|exact Hn].
    by eapply search_users_chars.
  - by intros [= _ _ <-].
Qed.

Lemma extract_listing_entry_nonneg e rank title link score ru :
  extract_listing_entry e = Ok (rank, title, link, score, ru) → (0 ≤ ru)%Z.
Proof.
  unfold extract_listing_entry. unfold mbind, result_bind, mret, result_ret.
  destruct (extract_rank_title e) as [[[r tag] t]|]; [|done].
  destruct (extract_link_score e tag) as [[[l sc] u]|] eqn:Hls; [|done].
  intros [= _ _ _ _ <-]. by eapply extract_link_score_nonneg.
Qed.

Lemma crawl_rows_valid server rows : ∀ n,
  Forall (λ r, (0 ≤ Rating_Users r)%Z ∧ counts_nonneg (Detail r))
         (crawl_rows server n rows).
Proof.
  induction rows as [|e rows IH]; intros n; simpl; [constructor|].
  destruct (extract_listing_entry e) as [[[[[rank title] link] score] ru]|ex] eqn:He;
    [|apply IH].
  constructor; [|apply IH]. simpl. split.
  - by eapply extract_listing_entry_nonneg.
  - apply details_of_response_nonneg.
Qed.

(** X5. Every record [parse_top_anime] returns has a number of rating
    users and five viewer counts that are not negative. *)
Theorem parse_top_anime_records_nonneg s page w :
  ∃ records w',
    parse_top_anime s page w = (Ok records, w')
    ∧ Forall (λ r, (0 ≤ Rating_Users r)%Z ∧ counts_nonneg (Detail r)) records.
Proof.
  destruct (parse_top_anime_spec s page w) as (tr & Hrun & _).
  eexists _, _. split; [exact Hrun|]. apply crawl_rows_valid.
Qed.

End CrawlInvariants.

Section CrawlAccounting.
Context `{ExternalLibs}.

Lemma fetch_page_sleeps s url w :
  ∃ tr, fetch_page s url w =
          (fetch_outcome (net w (requests w) url) url,
           World (net w) (S (requests w)) (tr ++ trace w) (dirs w) (files w))
        ∧ sleeps_of tr = [].
Proof.
  unfold fetch_page, fetch_outcome. unfold_M. simpl.
  destruct (net w (requests w) url) as [e|status content]; simpl.
  - destruct (is_RequestException e); simpl.
    + by exists [EvLog ERROR (MsgErrorFetching url e)].
    + by exists [].
  - unfold raise_for_status.
    destruct ((400 <=? status)%Z && (status <? 600)%Z); simpl.
    + by eexists [EvLog ERROR (MsgErrorFetching url _)].
    + by exists [].
Qed.

Lemma parse_anime_details_sleeps s url w :
  ∃ tr, parse_anime_details s url w =
          (Ok (details_of_response (net w (requests w) url) url),
           World (net w) (S (requests w)) (tr ++ trace w) (dirs w) (files w))
        ∧ sleeps_of tr = [].
Proof.
  destruct (fetch_page_sleeps s url w) as (tr & Hf & Htr).
  unfold parse_anime_details, parse_anime_details_try, details_of_response,
    detail_outcome.
  unfold_M. rewrite Hf. simpl.
  destruct (fetch_outcome _ _) as [doc|e]; simpl.
  - destruct (extract_detail_fields doc) as [d|e]; simpl.
    + by exists tr.
    + unfold log_event; simpl.
      by eexists (EvLog ERROR (MsgErrorParsingDetails url e) :: tr).
  - unfold log_event; simpl.
    by eexists (EvLog ERROR (MsgErrorParsingDetails url e) :: tr).
Qed.

Lemma process_entry_full s st e w :
  ∃ tr,
    process_entry s st e w =
      (Ok (LoopState (anime_list st ++ crawl_rows (net w) (requests w) [e])
                     (title_after (title_local st) [e])),
       World (net w) (requests w + length (crawl_rows (net w) (requests w) [e]))
             (tr ++ trace w) (dirs w) (files w))
    ∧ sleeps_of tr
      = replicate (length (crawl_rows (net w) (requests w) [e])) (EvSleep 5 10)
    ∧ (∀ ex, extract_rank_title e = Raise ex →
             tr = [EvLog ERROR
                     (MsgErrorProcessingEntry (title_or_unknown (title_local st)) ex)]).
Proof.
  unfold process_entry, title_after. simpl. unfold extract_listing_entry.
  destruct (extract_rank_title e) as [[[rank title_tag] title]|ex]; simpl.
  - destruct (extract_link_score e title_tag) as [[[link score] ru]|ex] eqn:Hls; simpl.
    + unfold_M. simpl.
      destruct (parse_anime_details_sleeps s link w) as (tr & Hd & Htr).
      unfold_M. rewrite Hd. simpl. unfold log_event. simpl.
      exists (EvSleep 5 10 :: tr). split; [|split; [|done]].
      * do 3 f_equal. lia.
      * unfold sleeps_of in *. simpl. by rewrite Htr.
    + unfold_M. simpl. unfold log_event. simpl.
      eexists [_]. rewrite app_nil_r, Nat.add_0_r. done.
  - unfold_M. simpl. unfold log_event. simpl.
    eexists [_]. rewrite app_nil_r, Nat.add_0_r. destruct st.
    split; [done|]. split; [done|]. by intros ex' [= <-].
Qed.

Lemma title_after_cons t e rows :
  title_after t (e :: rows) = title_after (title_after t [e]) rows.
Proof. done. Qed.

Lemma for_entries_full s rows : ∀ st w,
  ∃ tr,
    for_entries s st rows w =
      (Ok (LoopState (anime_list st ++ crawl_rows (net w) (requests w) rows)
                     (title_after (title_local st) rows)),
       World (net w) (requests w + length (crawl_rows (net w) (requests w) rows))
             (tr ++ trace w) (dirs w) (files w))
    ∧ sleeps_of tr
      = replicate (length (crawl_rows (net w) (requests w) rows)) (EvSleep 5 10).
Proof.
  induction rows as [|e rows IH]; intros st w.
  - exists []. simpl. unfold_M.
    rewrite app_nil_r, Nat.add_0_r. by destruct st, w.
  - destruct (process_entry_full s st e w) as (tr1 & H1 & S1 & _).
    rewrite crawl_rows_cons, title_after_cons.
    set (one := crawl_rows (net w) (requests w) [e]) in *.
    change (for_entries s st (e :: rows) w)
      with (mbind (λ st', for_entries s st' rows) (process_entry s st e) w).
    unfold mbind, M_bind. rewrite H1.
    match goal with |- context [for_entries s ?st' rows ?w'] =>
      destruct (IH st' w') as (tr2 & H2 & S2) end.
    rewrite H2. cbn [net requests trace dirs files anime_list title_local] in *.
    exists (tr2 ++ tr1). split.
    + by rewrite <- !app_assoc, length_app, Nat.add_assoc.
    + unfold sleeps_of in *.
      rewrite List.filter_app, S1, S2, length_app, <- replicate_add.
      f_equal. lia.
Qed.

Lemma for_entries_app s rows1 rows2 : ∀ st w,
  for_entries s st (rows1 ++ rows2) w =
    match for_entries s st rows1 w with
    | (Ok st', w') => for_entries s st' rows2 w'
    | (Raise e, w') => (Raise e, w')
    end.
Proof.
  induction rows1 as [|e rows1 IH]; intros st w; [done|].
  simpl. unfold mbind, M_bind.
  destruct (process_entry s st e w) as [[st'|ex] w1]; [apply IH|done].
Qed.

(** X6. [parse_top_anime] makes one request and one sleep of 5 to 10
    seconds for each record it returns, none for a row it skips, sleeps
    at no other moment, and leaves the directories and files as they
    were. *)
Theorem parse_top_anime_requests_and_sleeps s page w :
  ∃ records w' tr,
    parse_top_anime s page w = (Ok records, w')
    ∧ requests w' = (requests w + length records)%nat
    ∧ trace w' = tr ++ trace w
    ∧ sleeps_of tr = replicate (length records) (EvSleep 5 10)
    ∧ dirs w' = dirs w ∧ files w' = files w.
Proof.
  unfold parse_top_anime. unfold mbind, M_bind.
  destruct (for_entries_full s (ranking_rows page) (LoopState [] None) w)
    as (tr & Hrun & Hsleeps).
  rewrite Hrun. simpl. by eexists _, _, tr.
Qed.

(** X7. The error logged for a row whose rank or title cannot be read
    names the title of the last earlier row of the page whose title was
    read, or "unknown" when there is none: the variable [title] still
    holds the value of that earlier iteration. *)
Theorem skipped_row_logged_under_earlier_title s page rows e ex w :
  ranking_rows page = rows ++ [e] →
  extract_rank_title e = Raise ex →
  ∃ records w' tr,
    parse_top_anime s page w = (Ok records, w')
    ∧ trace w' =
        EvLog ERROR (MsgErrorProcessingEntry
                       (title_or_unknown (title_after None rows)) ex) :: tr.
Proof.
  intros Hrows Hex. unfold parse_top_anime. unfold mbind, M_bind.
  rewrite Hrows, for_entries_app.
  destruct (for_entries_full s rows (LoopState [] None) w) as (tr & Hrun & _).
  rewrite Hrun.
  match goal with |- context [for_entries s ?st' [e] ?w'] =>
    destruct (process_entry_full s st' e w') as (tr1 & H1 & _ & Hlog) end.
  cbn [for_entries]. unfold mbind, M_bind. rewrite H1. unfold mret, M_ret.
  rewrite (Hlog ex Hex). simpl. by eexists _, _, _.
Qed.

End CrawlAccounting.

(** A page of the row " Alpha " and a row without rank cell whose title
    is "Delta": the error that reports the second row names "Alpha". *)
Lemma skipped_row_logged_under_earlier_title_witness :
  ∃ records w' tr,
    parse_top_anime (H:=stable_libs) create_session
      (listing_of [sample_row "1" " Alpha " "/anime/1" "9.10"; row_without_rank])
      (sample_world (always sample_detail)) = (Ok records, w')
    ∧ trace w' =
        EvLog ERROR (MsgErrorProcessingEntry "Alpha"
                       (attribute_error "text")) :: tr.
Proof.
  exact (skipped_row_logged_under_earlier_title (H:=stable_libs) create_session
           (listing_of [sample_row "1" " Alpha " "/anime/1" "9.10"; row_without_rank])
           [sample_row "1" " Alpha " "/anime/1" "9.10"] row_without_rank
           (attribute_error "text") (sample_world (always sample_detail))
           eq_refl eq_refl).
Defined.

(** * Further properties of saving and of the collector's [main] *)

Lemma elem_of_with_ancestors (q p : path) :
  q ∈ with_ancestors p ↔ ∃ n : nat, (n ≤ length p)%nat ∧ q = take n p.
Proof.
  unfold with_ancestors. rewrite list_elem_of_fmap. split.
  - intros (n & -> & Hn). apply elem_of_seq in Hn. exists n. split; [lia|done].
  - intros (n & Hn & ->). exists n. split; [done|]. apply elem_of_seq. lia.
Qed.

Lemma parent_length (p : path) : p ≠ [] → (length (parent p) < length p)%nat.
Proof.
  intros Hp. unfold parent.
  destruct (exists_last Hp) as (q & a & ->).
  rewrite removelast_last, length_app. simpl. lia.
Qed.

Lemma save_data_ok anime_list filepath w :
  anime_list ≠ [] → filepath ≠ [] →
  existsb (is_file w) (with_ancestors (parent filepath)) = false →
  is_dir w filepath = false →
  save_data anime_list filepath w =
    (Ok (DataFrame_of_records anime_list),
     World (net w) (requests w) (EvLog INFO (MsgDataSaved filepath) :: trace w)
           (dirs w ∪ list_to_set (with_ancestors (parent filepath)))
           (<[filepath := CsvFile (DataFrame_of_records anime_list)]> (files w))).
Proof.
  intros Hl Hp Hfiles Hdir. unfold save_data.
  destruct anime_list as [|r l]; [done|].
  unfold mbind, M_bind, mkdir_parents. rewrite Hfiles.
  unfold write_file.
  assert (is_dir (World (net w) (requests w) (trace w)
                    (dirs w ∪ list_to_set (with_ancestors (parent filepath)))
                    (files w)) filepath = false) as ->.
  { unfold is_dir in *. cbn [dirs]. apply bool_decide_eq_false.
    apply bool_decide_eq_false in Hdir.
    intros [Hin|Hin]%elem_of_union; [done|].
    apply elem_of_list_to_set, elem_of_with_ancestors in Hin as (n & Hn & Heq).
    apply (f_equal length) in Heq. rewrite length_take in Heq.
    pose proof (parent_length filepath Hp). lia. }
  assert (is_dir (World (net w) (requests w) (trace w)
                    (dirs w ∪ list_to_set (with_ancestors (parent filepath)))
                    (files w)) (parent filepath) = true) as ->.
  { unfold is_dir. cbn [dirs]. apply bool_decide_eq_true.
    apply elem_of_union. right.
    apply elem_of_list_to_set, elem_of_with_ancestors.
    exists (length (parent filepath)). split; [done|].
    by rewrite firstn_all. }
  reflexivity.
Qed.


(** X9. With at least one record, a target path that is no directory and
    no file in the way of its parent directories, [save_data] creates the
    parent directories that are missing, writes the table of all the
    records at the path, logs it and returns the table. *)
Theorem save_data_writes_the_table anime_list filepath w :
  anime_list ≠ [] → filepath ≠ [] →
  existsb (is_file w) (with_ancestors (parent filepath)) = false →
  is_dir w filepath = false →
  ∃ w',
    save_data anime_list filepath w = (Ok (DataFrame_of_records anime_list), w')
    ∧ files w' = <[filepath := CsvFile (DataFrame_of_records anime_list)]> (files w)
    ∧ (∀ d, d ∈ dirs w' ↔ d ∈ dirs w ∨ ∃ n : nat, (n ≤ length (parent filepath))%nat
                                                   ∧ d = take n (parent filepath))
    ∧ trace w' = EvLog INFO (MsgDataSaved filepath) :: trace w.
Proof.
  intros Hl Hp Hfiles Hdir. eexists.
  split; [by apply save_data_ok|]. cbn [files dirs trace].
  split; [done|]. split; [|done].
  intros d. rewrite elem_of_union. f_equiv.
  etransitivity; [apply elem_of_list_to_set|apply elem_of_with_ancestors].
Qed.

Section ScrapeMain.
Context `{ExternalLibs}.

(** X10. When the fetch of one of the three listing pages fails, [main]
    logs the failure and raises it again: the records of the pages read
    before are dropped and no directory or file is created. *)
Theorem listing_failure_aborts_run script_dir w e :
  crawl_pages (net w) (requests w) [0; 50; 100]%Z = Raise e →
  ∃ w' tr,
    scrape_main script_dir w = (Raise e, w')
    ∧ trace w' = EvLog ERROR (MsgScriptFailed e) :: tr
    ∧ dirs w' = dirs w ∧ files w' = files w.
Proof.
  intros Hcrawl. unfold scrape_main, try_except. unfold mbind at 1, M_bind at 1.
  destruct (for_offsets_spec create_session [0; 50; 100]%Z [] w) as (tr & n' & Hrun).
  rewrite Hcrawl in Hrun. rewrite Hrun. simpl.
  unfold_M. simpl. by eexists _, _.
Qed.

(** X11. When the three listing pages are fetched and at least one row
    parses, and nothing is in the way of the data directory, [main]
    returns normally and leaves one new file, the table of all the
    records in listing order, at [data/top_anime_detailed.csv] beside the
    directory of the script. *)
Theorem run_writes_all_records script_dir w records :
  let output_file := parent script_dir ++ ["data"; "top_anime_detailed.csv"] in
  crawl_pages (net w) (requests w) [0; 50; 100]%Z = Ok records →
  records ≠ [] →
  existsb (is_file w) (with_ancestors (parent output_file)) = false →
  is_dir w output_file = false →
  ∃ w',
    scrape_main script_dir w = (Ok tt, w')
    ∧ files w' = <[output_file := CsvFile (DataFrame_of_records records)]> (files w).
Proof.
  intros output_file Hcrawl Hne Hfiles Hdir.
  unfold scrape_main, try_except. unfold mbind at 1, M_bind at 1.
  destruct (for_offsets_spec create_session [0; 50; 100]%Z [] w) as (tr & n' & Hrun).
  rewrite Hcrawl in Hrun. rewrite Hrun. simpl app.
  unfold mbind at 1, M_bind at 1.
  replace ((parent script_dir ++ ["data"]) ++ ["top_anime_detailed.csv"])
    with output_file by (unfold output_file; by rewrite <- app_assoc).
  rewrite save_data_ok; [|done|by destruct (parent script_dir)|exact Hfiles|exact Hdir].
  unfold_M. simpl. by eexists.
Qed.

End ScrapeMain.

(** Three records saved under a fresh data directory. *)
Lemma save_data_writes_the_table_witness :
  ∃ w',
    save_data (crawl_rows (H:=stable_libs) (always sample_detail) 0
                 (ranking_rows sample_listing))
      ["repo"; "data"; "top_anime_detailed.csv"] empty_world
    = (Ok (DataFrame_of_records
             (crawl_rows (H:=stable_libs) (always sample_detail) 0
                (ranking_rows sample_listing))), w')
    ∧ ["repo"; "data"] ∈ dirs w'.
Proof.
  destruct (save_data_writes_the_table
              (crawl_rows (H:=stable_libs) (always sample_detail) 0
                 (ranking_rows sample_listing))
              ["repo"; "data"; "top_anime_detailed.csv"] empty_world)
    as (w' & Hrun & _ & Hdirs & _);
    [done|done|vm_compute; reflexivity|vm_compute; reflexivity|].
  exists w'. split; [exact Hrun|]. apply Hdirs. right.
  exists 2%nat. split; [vm_compute; lia|reflexivity].
Defined.

(** The second listing page times out: the run fails with the error of
    [fetch_page] and writes nothing, although the first page gave three
    records. *)
Lemma listing_failure_aborts_run_witness :
  ∃ w' tr,
    scrape_main (H:=stable_libs) ["repo"; "src"] (sample_world second_listing_fails)
    = (Raise (Exn AnimeScraperError "Failed to fetch page: Read timed out"), w')
    ∧ trace w' =
        EvLog ERROR (MsgScriptFailed
                       (Exn AnimeScraperError "Failed to fetch page: Read timed out"))
        :: tr
    ∧ dirs w' = dirs (sample_world second_listing_fails)
    ∧ files w' = files (sample_world second_listing_fails).
Proof.
  apply (listing_failure_aborts_run (H:=stable_libs)).
  vm_compute. reflexivity.
Defined.

(** The sample site: nine records end in the output file. *)
Lemma run_writes_all_records_witness :
  ∃ w',
    scrape_main (H:=stable_libs) ["repo"; "src"]
      (sample_world (site sample_listing sample_detail)) = (Ok tt, w')
    ∧ is_Some (files w' !! (parent ["repo"; "src"]
                             ++ ["data"; "top_anime_detailed.csv"])).
Proof.
  destruct (run_writes_all_records (H:=stable_libs) ["repo"; "src"]
              (sample_world (site sample_listing sample_detail))
              (crawl_rows (H:=stable_libs) (site sample_listing sample_detail) 1
                 (ranking_rows sample_listing)
               ++ crawl_rows (H:=stable_libs) (site sample_listing sample_detail) 5
                    (ranking_rows sample_listing)
               ++ crawl_rows (H:=stable_libs) (site sample_listing sample_detail) 9
                    (ranking_rows sample_listing)))
    as (w' & Hrun & Hfiles);
    [vm_compute; reflexivity|done|vm_compute; reflexivity|vm_compute; reflexivity|].
  exists w'. split; [exact Hrun|]. rewrite Hfiles. rewrite lookup_insert_eq. by eexists.
Defined.

(** * Further properties of the normalizer *)

Section CleanedSchema.
Context `{ExternalLibs}.

Lemma Forall_rows_at (P : cell → Prop) indexer col :
  Forall P col → Forall (λ i, i < length col) indexer →
  Forall P (rows_at indexer col).
Proof.
  intros Hcol Hidx. unfold rows_at. apply Forall_fmap.
  eapply Forall_impl; [exact Hidx|]. intros i Hi. simpl.
  apply lookup_lt_is_Some in Hi as [c Hc].
  rewrite (nth_lookup_Some _ _ _ _ Hc).
  apply list_elem_of_lookup_2 in Hc. exact (proj1 (Forall_forall _ _) Hcol _ Hc).
Qed.

Lemma to_numeric_numbers col : Forall is_number (to_numeric col).
Proof.
  unfold to_numeric. apply Forall_fmap, Forall_forall. intros c _. simpl.
  destruct c; by eexists.
Qed.

Lemma cleaned_rating_numbers col : Forall is_number (cleaned_rating col).
Proof. unfold cleaned_rating. destruct (is_object col); apply to_numeric_numbers. Qed.

Lemma cleaned_status_present col : Forall is_present_number (cleaned_status col).
Proof.
  unfold cleaned_status, fillna, to_numeric. rewrite <- list_fmap_compose.
  apply Forall_fmap, Forall_forall. intros c _. simpl.
  destruct c as [[| |]|s]; simpl; try by eexists.
  destruct (pd_parse s); by eexists.
Qed.

Lemma fillna_other_present col :
  Forall (λ c, c ≠ CNum NaN) (fillna (CStr "Other") col).
Proof.
  unfold fillna. apply Forall_fmap, Forall_forall. intros c _. simpl.
  by destruct c as [[| |]|s].
Qed.

Lemma sum_axis1_numbers n a b c d e : Forall is_number (sum_axis1 n [a; b; c; d; e]).
Proof.
  unfold sum_axis1. simpl. apply Forall_lookup. intros i x Hx.
  apply lookup_zip_with_Some in Hx as (y & z & -> & _ & _). by eexists.
Qed.

Lemma completion_rate_present a b : Forall is_present_number (completion_rate a b).
Proof.
  unfold completion_rate, fillna. apply Forall_fmap, Forall_lookup. intros i x Hx.
  apply lookup_zip_with_Some in Hx as (y & z & -> & _ & _). simpl.
  destruct (round2 _); by eexists.
Qed.

(** The cleaned table before the sort, and the output as its rows at a
    permutation. *)
Lemma cleaned_output_view df w :
  argsort_spec np_argsort → wf_frame df →
  Forall (λ c, is_Some (cols df !! c)) required_cols →
  ∃ df1 df' w' indexer,
    cleaned_columns df = Ok df1
    ∧ clean_anime_data df w = (Ok df', w')
    ∧ indexer ≡ₚ seq 0 (nrows df)
    ∧ nrows df' = nrows df
    ∧ wf_frame df1 ∧ nrows df1 = nrows df
    ∧ cols df' = rows_at indexer <$> cols df1.
Proof.
  intros Hsort Hwf Hall.
  destruct (clean_anime_data_rows df w Hsort Hwf Hall)
    as (df1 & df' & w' & indexer & Hclean & Hrun & Hperm & Hn & Hcols & _).
  destruct (cleaned_columns_wf df df1 Hwf Hclean) as [Hwf1 Hn1].
  by eexists df1, df', w', indexer.
Qed.

Lemma output_column_Forall (P : cell → Prop) df df1 df' indexer c col1 col' :
  indexer ≡ₚ seq 0 (nrows df) → wf_frame df1 → nrows df1 = nrows df →
  cols df' = rows_at indexer <$> cols df1 →
  cols df1 !! c = Some col1 → Forall P col1 →
  cols df' !! c = Some col' → Forall P col'.
Proof.
  intros Hperm Hwf1 Hn1 Hcols Hc1 HP Hc'.
  rewrite Hcols, lookup_fmap, Hc1 in Hc'. injection Hc' as <-.
  apply Forall_rows_at; [done|].
  apply Forall_forall. intros i Hi. rewrite Hperm in Hi. apply elem_of_seq in Hi.
  rewrite (Hwf1 _ _ Hc1), Hn1. lia.
Qed.

(** X12. What the cleaned columns hold, row order apart: Score,
    Rating_Users, Episodes and Total_Watchers hold numbers only (NaN where
    the raw cell was no number), Type has no missing value, and the five
    status columns and Completion_Rate hold numbers that are never NaN. *)
Theorem cleaned_columns_are_typed df w :
  argsort_spec np_argsort → wf_frame df →
  Forall (λ c, is_Some (cols df !! c)) required_cols →
  ∃ df' w',
    clean_anime_data df w = (Ok df', w')
    ∧ (∀ c, c ∈ ["Score"; "Rating_Users"; "Episodes"; "Total_Watchers"] →
            ∃ col, cols df' !! c = Some col ∧ Forall is_number col)
    ∧ (∃ col, cols df' !! "Type" = Some col ∧ Forall (λ x, x ≠ CNum NaN) col)
    ∧ (∀ c, c ∈ status_cols ++ ["Completion_Rate"] →
            ∃ col, cols df' !! c = Some col ∧ Forall is_present_number col).
Proof.
  intros Hsort Hwf Hall.
  destruct (cleaned_output_view df w Hsort Hwf Hall)
    as (df1 & df' & w' & indexer & Hclean & Hrun & Hperm & Hn & Hwf1 & Hn1 & Hcols).
  exists df', w'. split; [exact Hrun|].
  apply cleaned_columns_inv in Hclean
    as (score & rating & episodes & type_ & wa & co & oh & dr & pl
        & _ & _ & _ & _ & _ & _ & _ & _ & _ & _ & Hdf1).
  assert (∀ (P : cell → Prop) c col1,
            cols df1 !! c = Some col1 → Forall P col1 →
            ∃ col, cols df' !! c = Some col ∧ Forall P col) as Hcol.
  { intros P c col1 Hc1 HP. exists (rows_at indexer col1). split.
    - by rewrite Hcols, lookup_fmap, Hc1.
    - eapply (output_column_Forall P df df1 df'); try done.
      by rewrite Hcols, lookup_fmap, Hc1. }
  rewrite Hdf1 in Hcol. cbn [cols] in Hcol.
  split; [|split].
  - intros c Hc.
    repeat (apply elem_of_cons in Hc as [->|Hc];
            [eapply Hcol;
             [rewrite ?lookup_insert_ne by done; apply lookup_insert_eq|
              first [apply to_numeric_numbers | apply cleaned_rating_numbers
                    | apply sum_axis1_numbers]]|]).
    by apply elem_of_nil in Hc.
  - eapply Hcol; [rewrite ?lookup_insert_ne by done; apply lookup_insert_eq|].
    apply fillna_other_present.
  - intros c Hc. unfold status_cols in Hc. simpl in Hc.
    repeat (apply elem_of_cons in Hc as [->|Hc];
            [eapply Hcol;
             [rewrite ?lookup_insert_ne by done; apply lookup_insert_eq|
              first [apply cleaned_status_present | apply completion_rate_present]]|]).
    by apply elem_of_nil in Hc.
Qed.


End CleanedSchema.

(** The sample table: its cleaned columns are typed, and its Title and
    Genres columns come out with their rows. *)
Lemma cleaned_columns_are_typed_witness :
  ∃ df' w',
    clean_anime_data (H:=stable_libs) sample_raw empty_world = (Ok df', w')
    ∧ (∃ col, cols df' !! "Type" = Some col ∧ Forall (λ x, x ≠ CNum NaN) col).
Proof.
  destruct (cleaned_columns_are_typed (H:=stable_libs) sample_raw empty_world
              stable_argsort_spec sample_raw_wf sample_raw_required)
    as (df' & w' & Hrun & _ & Htype & _).
  exists df', w'. split; [exact Hrun|exact Htype].
Defined.


(** * Rows without a score *)

Section MissingScores.
Context `{ExternalLibs}.
Hypothesis np_argsort_spec : argsort_spec np_argsort.






End MissingScores.


(** * Further properties of the reporter *)

Section ReporterFailures.
Context `{ExternalLibs}.



(** X15. Without the cleaned CSV the reporter fails with
    FileNotFoundError, which it logs and raises again; no chart is
    written, but the plots directory, made before the table is read, is
    left behind. *)
Theorem missing_cleaned_csv_leaves_plots_dir script_dir w :
  let plots_dir := parent script_dir ++ ["plots"] in
  let csv := parent script_dir ++ ["data"] ++ ["top_anime_detailed_cleaned.csv"] in
  let e := Exn FileNotFoundError "No such file or directory" in
  files w !! csv = None →
  is_file w plots_dir = false →
  is_dir w plots_dir = false →
  is_dir w (parent plots_dir) = true →
  ∃ w', visualize_main script_dir w = (Raise e, w')
        ∧ files w' = files w
        ∧ dirs w' = dirs w ∪ {[plots_dir]}
        ∧ trace w' = EvLog ERROR (MsgErrorVisualization e) :: trace w.
Proof.
  intros plots_dir csv e Hcsv Hnf Hnd Hparent.
  unfold visualize_main, try_except.
  unfold mbind at 1, M_bind at 1. fold plots_dir.
  unfold mkdir_exist_ok. rewrite Hnf, Hnd, Hparent.
  unfold mbind at 1, M_bind at 1.
  replace ((parent script_dir ++ ["data"]) ++ ["top_anime_detailed_cleaned.csv"])
    with csv by (unfold csv; by rewrite <- app_assoc).
  unfold read_csv. cbn [files]. rewrite Hcsv.
  eexists. split; [reflexivity|]. by cbn.
Qed.


End ReporterFailures.

(** A checkout with an empty data directory. *)
Lemma missing_cleaned_csv_leaves_plots_dir_witness :
  let plots_dir := parent ["repo"; "src"] ++ ["plots"] in
  let e := Exn FileNotFoundError "No such file or directory" in
  ∃ w', visualize_main (H:=stable_libs) ["repo"; "src"] repo_without_csv = (Raise e, w')
        ∧ files w' = files repo_without_csv
        ∧ dirs w' = dirs repo_without_csv ∪ {[plots_dir]}
        ∧ trace w' = EvLog ERROR (MsgErrorVisualization e) :: trace repo_without_csv.
Proof.
  apply (missing_cleaned_csv_leaves_plots_dir (H:=stable_libs)
           ["repo"; "src"] repo_without_csv); vm_compute; reflexivity.
Defined.

